(** * make_vendor_list.py: the spreadsheet parser, the code generator and
    the driver, embedded in Rocq.

    The program is Python 3.  Its values are modelled as follows.

    - [str] is a sequence of Unicode code points, each a [Z] (what [ord]
      gives); literals of the source are written [py "..."].
    - Python integers are [Z].
    - An exception is a value of [Exception]; code that may raise returns a
      [result].
    - A generator is modelled by what a consumer that drains it observes:
      the items it yields, in order, and the exception that ended the
      iteration, if any ([Trace]).
    - The parsed spreadsheet is the [Element] tree that
      [xml.etree.ElementTree] hands to the program.
    - The output file is one cell of a file system that the driver
      threads through its steps. *)

From Stdlib Require Import ZArith Ascii String DecimalN DecimalFacts DecimalPos.
From stdpp Require Import base tactics option list gmap.

Local Open Scope Z_scope.
#[local] Set Warnings "-register-all".

(** ** Strings *)

Definition str : Type := list Z.

Definition ord (a : ascii) : Z := Z.of_N (N_of_ascii a).

Definition py (s : string) : str := ord <$> list_ascii_of_string s.

Definition len {A} (l : list A) : Z := Z.of_nat (length l).

(** [Py_UNICODE_ISSPACE]: the code points [str.strip()] removes. *)
Definition Py_UNICODE_ISSPACE (c : Z) : bool :=
  bool_decide (c ∈ [9; 10; 11; 12; 13; 28; 29; 30; 31; 32; 133; 160; 5760;
                    8192; 8193; 8194; 8195; 8196; 8197; 8198; 8199; 8200;
                    8201; 8202; 8232; 8233; 8239; 8287; 12288]).

(** The first code point of every run of ten decimal digits in the
    Unicode database (version 14.0, category Nd); each run is DIGIT ZERO
    to DIGIT NINE in order. *)
Definition unicode_decimal_zeros : list Z :=
  [48; 1632; 1776; 1984; 2406; 2534; 2662; 2790; 2918; 3046; 3174; 3302;
   3430; 3558; 3664; 3792; 3872; 4160; 4240; 6112; 6160; 6470; 6608; 6784;
   6800; 6992; 7088; 7232; 7248; 42528; 43216; 43264; 43472; 43504; 43600;
   44016; 65296; 66720; 68912; 69734; 69872; 69942; 70096; 70384; 70736;
   70864; 71248; 71360; 71472; 71904; 72016; 72784; 73040; 73120; 92768;
   92864; 93008; 120782; 120792; 120802; 120812; 120822; 123200; 123632;
   125264; 130032].

(** [Py_UNICODE_TODECIMAL]: the value of a decimal digit, [None] for any
    other code point.  This is the class [\d] of [re] on [str] patterns. *)
Definition Py_UNICODE_TODECIMAL (c : Z) : option Z :=
  (λ z, c - z) <$> List.find (λ z, bool_decide (z ≤ c < z + 10))
                             unicode_decimal_zeros.

Fixpoint lstrip (s : str) : str :=
  match s with
  | c :: s' => if Py_UNICODE_ISSPACE c then lstrip s' else s
  | [] => []
  end.
Definition rstrip (s : str) : str := reverse (lstrip (reverse s)).
(** [str.strip()] with no argument. *)
Definition strip (s : str) : str := rstrip (lstrip s).

(** [sep.join(lines)]. *)
Fixpoint join (sep : str) (lines : list str) : str :=
  match lines with
  | [] => []
  | [l] => l
  | l :: ls => l ++ sep ++ join sep ls
  end.

(** ** Exceptions *)

Inductive ValueErrorReason :=
| TimeDataDoesNotMatch      (* strptime: time data ... does not match format *)
| UnconvertedDataRemains    (* strptime: unconverted data remains *)
| InvalidLiteralForInt      (* int() *)
| DateOutOfRange            (* datetime.date: year, month or day out of range *)
| UnpackMismatch            (* tuple unpacking of the wrong number of values *)
| PnpIdLength.              (* 'PNP ID must be exactly 3 characters' *)

Inductive Exception :=
| AttributeError            (* 'NoneType' object has no attribute 'strip' *)
| ValueError (why : ValueErrorReason)
| UnicodeEncodeError        (* 'ascii' codec can't encode character *)
| OSError                   (* the file cannot be opened *)
| ParseError                (* the file is not well-formed XML *)
| SystemExit (code : Z).    (* argparse: usage error (2) or help (0) *)

(** [isinstance(e, ValueError)]: [UnicodeEncodeError] derives from
    [UnicodeError], which derives from [ValueError]. *)
Definition isinstance_ValueError (e : Exception) : bool :=
  match e with
  | ValueError _ | UnicodeEncodeError => true
  | _ => false
  end.

Inductive result (A : Type) :=
| Return (a : A)
| Raise (e : Exception).
Arguments Return {A} a.
Arguments Raise {A} e.

Definition rbind {A B} (m : result A) (k : A → result B) : result B :=
  match m with
  | Return a => k a
  | Raise e => Raise e
  end.

#[global] Instance result_ret : MRet result := λ A a, Return a.
#[global] Instance result_bind : MBind result := λ A B k m, rbind m k.

(** What draining a generator shows: the items yielded, and the exception
    that ended the iteration ([None] for a normal end). *)
Definition Trace (A : Type) : Type := (list A * option Exception)%type.

(** [yield a] in front of the rest of a generator body. *)
Definition yield {A} (a : A) (rest : Trace A) : Trace A :=
  (a :: rest.1, rest.2).

(** ** The element tree *)

Inductive Element :=
  mkElement { tag : str; text : option str; children : list Element }.

(** [Element.iter()]: the element, then its descendants, in document
    order. *)
Fixpoint iter (e : Element) : list Element :=
  match e with
  | mkElement _ _ cs =>
      e :: (fix iter_all (l : list Element) : list Element :=
              match l with
              | [] => []
              | c :: l' => iter c ++ iter_all l'
              end) cs
  end.

Definition has_tag (t : str) (e : Element) : bool := bool_decide (tag e = t).

(** The steps of an ElementPath expression. *)
Inductive path_step :=
| SelfStep                      (* .      *)
| DescendantStep (t : str)      (* //tag  *)
| ChildStep (t : str).          (* /tag   *)

(** [prepare_self], [prepare_descendant] and [prepare_child] of
    [xml.etree.ElementPath]. *)
Definition select (st : path_step) (res : list Element) : list Element :=
  match st with
  | SelfStep => res
  | DescendantStep t =>
      elem ← res; List.filter (has_tag t) (children elem ≫= iter)
  | ChildStep t =>
      elem ← res; List.filter (has_tag t) (children elem)
  end.

(** [elem.findall(path)]. *)
Definition findall (elem : Element) (path : list path_step) : list Element :=
  foldl (λ res st, select st res) [elem] path.

(** ** [datetime.datetime.strptime(_, '%m/%d/%Y').date()] *)

(** The fragment of regular expressions that [_strptime] builds for this
    format. *)
Inductive regex :=
| Chr (c : Z)                 (* a literal character *)
| Range (lo hi : Z)           (* [lo-hi] *)
| AnyDigit                    (* \d *)
| Cat (r1 r2 : regex)
| Alt (r1 r2 : regex).

Definition one_char (p : Z → bool) (s : str) : list (str * str) :=
  match s with
  | x :: s' => if p x then [([x], s')] else []
  | [] => []
  end.

(** The backtracking matcher: every way of matching [r] at the start of
    [s], as the matched text and what follows it, in the order [re] tries
    them. *)
Fixpoint rx_match (r : regex) (s : str) : list (str * str) :=
  match r with
  | Chr c => one_char (λ x, bool_decide (x = c)) s
  | Range lo hi => one_char (λ x, bool_decide (lo ≤ x ≤ hi)) s
  | AnyDigit => one_char (λ x, bool_decide (is_Some (Py_UNICODE_TODECIMAL x))) s
  | Cat r1 r2 =>
      '(w1, s1) ← rx_match r1 s;
      '(w2, s2) ← rx_match r2 s1;
      [(w1 ++ w2, s2)]
  | Alt r1 r2 => rx_match r1 s ++ rx_match r2 s
  end.

(** [(?P<m>1[0-2]|0[1-9]|[1-9])] *)
Definition re_m : regex := Eval cbv in
  Alt (Cat (Chr (ord "1")) (Range (ord "0") (ord "2")))
 (Alt (Cat (Chr (ord "0")) (Range (ord "1") (ord "9")))
      (Range (ord "1") (ord "9"))).

(** [(?P<d>3[0-1]|[1-2]\d|0[1-9]|[1-9]| [1-9])] *)
Definition re_d : regex := Eval cbv in
  Alt (Cat (Chr (ord "3")) (Range (ord "0") (ord "1")))
 (Alt (Cat (Range (ord "1") (ord "2")) AnyDigit)
 (Alt (Cat (Chr (ord "0")) (Range (ord "1") (ord "9")))
 (Alt (Range (ord "1") (ord "9"))
      (Cat (Chr (ord " ")) (Range (ord "1") (ord "9")))))).

(** [(?P<Y>\d\d\d\d)] *)
Definition re_Y : regex := Cat AnyDigit (Cat AnyDigit (Cat AnyDigit AnyDigit)).

Definition slash : Z := Eval cbv in ord "/".

(** A named group followed by the separator. *)
Definition group_then (r : regex) (sep : Z) (s : str) : list (str * str) :=
  '(w, s1) ← rx_match r s;
  '(_, s2) ← rx_match (Chr sep) s1;
  [(w, s2)].

(** [format_regex.match(data_string)] for the format ['%m/%d/%Y']: the
    groups m, d and Y of the first match, and the text after the match. *)
Definition format_regex_match (data_string : str)
  : option (str * str * str * str) :=
  head ('(m, s1) ← group_then re_m slash data_string;
        '(d, s2) ← group_then re_d slash s1;
        '(y, rest) ← rx_match re_Y s2;
        [(m, d, y, rest)]).

(** [int(s)] for a string of decimal digits with blanks around it, the
    only texts the groups above can hold. *)
Definition int (s : str) : result Z :=
  match strip s with
  | [] => Raise (ValueError InvalidLiteralForInt)
  | t =>
      foldl (λ acc c,
               a ← acc;
               match Py_UNICODE_TODECIMAL c with
               | Some d => Return (10 * a + d)
               | None => Raise (ValueError InvalidLiteralForInt)
               end) (Return 0) t
  end.

Record date := mkdate { year : Z; month : Z; day : Z }.

Definition _is_leap (y : Z) : bool :=
  bool_decide (y mod 4 = 0) &&
  (negb (bool_decide (y mod 100 = 0)) || bool_decide (y mod 400 = 0)).

Definition _DAYS_IN_MONTH : list Z :=
  [-1; 31; 28; 31; 30; 31; 30; 31; 31; 30; 31; 30; 31].

Definition _days_in_month (y m : Z) : Z :=
  if bool_decide (m = 2) && _is_leap y then 29
  else default 0 (_DAYS_IN_MONTH !! Z.to_nat m).

(** [datetime.date(year, month, day)] with [_check_date_fields]. *)
Definition datetime_date (y m d : Z) : result date :=
  if negb (bool_decide (1 ≤ y ≤ 9999)) then Raise (ValueError DateOutOfRange)
  else if negb (bool_decide (1 ≤ m ≤ 12)) then Raise (ValueError DateOutOfRange)
  else if negb (bool_decide (1 ≤ d ≤ _days_in_month y m))
       then Raise (ValueError DateOutOfRange)
  else Return (mkdate y m d).

Definition strptime_mdY (data_string : str) : result date :=
  match format_regex_match data_string with
  | None => Raise (ValueError TimeDataDoesNotMatch)
  | Some (m, d, y, rest) =>
      if negb (bool_decide (rest = [])) then
        Raise (ValueError UnconvertedDataRemains)
      else
        year ← int y;
        month ← int m;
        day ← int d;
        datetime_date year month day
  end.


(** ** The parser *)

(** Modelled from the spec: [bios_pnp.pnp.Vendor], whose module is not part
    of the sources; the spec gives it as an immutable value with the three
    fields [name], [pnp_id] and [approval_date], built positionally. *)
Record Vendor := mkVendor { name : str; pnp_id : str; approval_date : date }.

(** [s.encode('ascii')]: one byte per code point, all below 128. *)
Definition encode_ascii (s : str) : result (list Z) :=
  if forallb (λ c, bool_decide (0 ≤ c < 128)) s then Return s
  else Raise UnicodeEncodeError.

(** The generator expression [(elem.text.strip() for elem in tds)],
    drained by the tuple assignment. *)
Fixpoint stripped_texts (tds : list Element) : result (list str) :=
  match tds with
  | [] => Return []
  | elem :: tds' =>
      match text elem with
      | None => Raise AttributeError
      | Some t => ts ← stripped_texts tds'; Return (strip t :: ts)
      end
  end.

(** Lines 60 to 64: the body of [if len(tds) == 3]. *)
Definition row_vendor (tds : list Element) : result Vendor :=
  texts ← stripped_texts tds;
  match texts with
  | [name; pnp_id; raw_date] =>
      date ← strptime_mdY raw_date;
      encoded ← encode_ascii pnp_id;
      if negb (bool_decide (len encoded = 3)) then
        Raise (ValueError PnpIdLength)
      else Return (mkVendor name pnp_id date)
  | _ => Raise (ValueError UnpackMismatch)
  end.

Definition td : str := Eval cbv in py "td".

(** [row.findall('td')]. *)
Definition row_tds (row : Element) : list Element :=
  findall row [ChildStep td].

(** The loop [for row in rows]. *)
Fixpoint for_row_in (rows : list Element) : Trace Vendor :=
  match rows with
  | [] => ([], None)
  | row :: rows' =>
      let tds := row_tds row in
      if bool_decide (len tds = 3) then
        match row_vendor tds with
        | Raise e => ([], Some e)
        | Return vendor => yield vendor (for_row_in rows')
        end
      else for_row_in rows'
  end.

(** ['.//body/table/tbody/tr'] *)
Definition rows_path : list path_step := Eval cbv in
  [SelfStep; DescendantStep (py "body"); ChildStep (py "table");
   ChildStep (py "tbody"); ChildStep (py "tr")].

(** [parse_spreadsheet]; its argument is what
    [ElementTree.ElementTree(file=spreadsheet_path)] gives for the path:
    the tree, or the exception raised when the file cannot be read or is
    not well-formed. *)
Definition parse_spreadsheet (tree : result Element) : Trace Vendor :=
  match tree with
  | Raise e => ([], Some e)
  | Return root => for_row_in (findall root rows_path)
  end.

(** ** The code generator *)

Fixpoint uint_codes (u : Decimal.uint) : str :=
  match u with
  | Decimal.Nil => []
  | Decimal.D0 u => 48 :: uint_codes u
  | Decimal.D1 u => 49 :: uint_codes u
  | Decimal.D2 u => 50 :: uint_codes u
  | Decimal.D3 u => 51 :: uint_codes u
  | Decimal.D4 u => 52 :: uint_codes u
  | Decimal.D5 u => 53 :: uint_codes u
  | Decimal.D6 u => 54 :: uint_codes u
  | Decimal.D7 u => 55 :: uint_codes u
  | Decimal.D8 u => 56 :: uint_codes u
  | Decimal.D9 u => 57 :: uint_codes u
  end.

(** [str(i)] for an integer. *)
Definition str_of_int (i : Z) : str :=
  match Z.to_int i with
  | Decimal.Pos u => uint_codes u
  | Decimal.Neg u => 45 :: uint_codes u
  end.

(** A literal that holds double quotes: every apostrophe of the Rocq
    string stands for a double quote of the Python literal. *)
Definition pyq (s : string) : str :=
  (λ c, if bool_decide (c = 39) then 34 else c) <$> py s.

(** [template.format( *args )] for templates whose only replacement fields
    are [{}]; the arguments are already [str]. *)
Fixpoint format (template : str) (args : list str) : str :=
  match template with
  | [] => []
  | c :: t' =>
      match t' with
      | c' :: t'' =>
          if bool_decide (c = 123) && bool_decide (c' = 125) then
            match args with
            | a :: args' => a ++ format t'' args'
            | [] => []
            end
          else c :: format t' args
      | [] => [c]
      end
  end.

(** The body of [for vendor in vendors]: the line yielded. *)
Definition vendor_line (vendor : Vendor) : str :=
  let date := format (py "datetime.date({}, {}, {})")
                [str_of_int (year (approval_date vendor));
                 str_of_int (month (approval_date vendor));
                 str_of_int (day (approval_date vendor))] in
  let key := pnp_id vendor in
  let value := format (pyq "pnp.Vendor('{}', '{}', {})")
                 [name vendor; pnp_id vendor; date] in
  let line := format (pyq "    '{}': {},") [key; value] in
  line.

(** The loop [for vendor in vendors] over a drained iterable, followed by
    the rest of the body when the iterable ends normally. *)
Fixpoint for_vendor_in (vendors : list Vendor) (stop : option Exception)
    (rest : Trace str) : Trace str :=
  match vendors with
  | vendor :: vendors' =>
      yield (vendor_line vendor) (for_vendor_in vendors' stop rest)
  | [] =>
      match stop with
      | Some e => ([], Some e)
      | None => rest
      end
  end.

Definition generate_vendor_module (vendors : Trace Vendor) : Trace str :=
  yield (py "# THIS FILE WAS AUTOGENERATED BY make_vendor_list.py!")
 (yield (py "# pylint: disable=line-too-long,missing-docstring,too-many-lines")
 (yield (py "# yapf: disable")
 (yield (py "import datetime")
 (yield (py "from bios_pnp import pnp")
 (yield (py "VENDORS = {")
 (for_vendor_in vendors.1 vendors.2
 (yield (py "}")
 (yield (py "# yapf: enable")
 (yield (py "")
 ([], None)))))))))).

(** ** The driver *)

(** The part of the file system the driver touches: the output file
    [bios_pnp/vendors.py] next to the script ([None] while it does not
    exist) and whether it can be opened for writing. *)
Record FileSystem := mkFS { vendors_py : option str; writable : bool }.

(** [open(output_path, 'w')]: creates or truncates the file. *)
Definition open_w (fs : FileSystem) : result FileSystem :=
  if writable fs then Return (mkFS (Some []) (writable fs))
  else Raise OSError.

(** What the run of the script is given besides the output file: the
    outcome of [parse_cli_args()], which is argparse's, the spreadsheet
    argument or the [SystemExit] of a usage error or of a call for help;
    what [ElementTree.ElementTree(file=path)] gives for each path; and the
    code points the encoding of the output file, the locale's, can
    encode. *)
Record Environment := mkEnv {
  cli_args : result str;
  spreadsheets : str → result Element;
  encodable : Z → bool
}.

(** [wfile.write(output)] followed by the close at the end of [with].  The
    text is encoded as a whole before any of it reaches the file: a
    character the encoding cannot encode raises [UnicodeEncodeError] and
    leaves the file as [open] made it.  The file is kept as the text a
    later read gives back. *)
Definition write (can_encode : Z → bool) (fs : FileSystem) (output : str)
  : result FileSystem :=
  if forallb can_encode output then
    Return (mkFS (Some (default [] (vendors_py fs) ++ output)) (writable fs))
  else Raise UnicodeEncodeError.

(** [sep.join(lines)] when [lines] is a generator: it is drained first,
    and its exception, if any, comes out of [join]. *)
Definition join_trace (sep : str) (lines : Trace str) : result str :=
  match lines.2 with
  | Some e => Raise e
  | None => Return (join sep lines.1)
  end.

Definition newline : str := [10].

(** [main].  The result is the file system afterwards and the exception
    that ended the process, if any.  [parse_spreadsheet] only makes the
    generator: the spreadsheet is read when [join] drains it, after the
    output file has been opened. *)
Definition main (env : Environment) (fs : FileSystem)
  : FileSystem * option Exception :=
  match cli_args env with
  | Raise e => (fs, Some e)
  | Return spreadsheet =>
      let vendors := parse_spreadsheet (spreadsheets env spreadsheet) in
      match open_w fs with
      | Raise e => (fs, Some e)
      | Return wfile =>
          match join_trace newline (generate_vendor_module vendors) with
          | Raise e => (wfile, Some e)
          | Return output =>
              match write (encodable env) wfile output with
              | Raise e => (wfile, Some e)
              | Return written => (written, None)
              end
          end
      end
  end.

(** ** Iterables and the objects they share *)

(** What [generate_vendor_module] may be given: a list, which every [for]
    walks from its first item, or an iterator object (such as the
    generator [parse_spreadsheet] returns), which lives in the heap and
    which every [for] takes up where the last one left it. *)
Inductive Iterable :=
| ListObject (items : list Vendor)
| IteratorObject (addr : nat).

(** The heap holds, for each iterator object, what it still has to give. *)
Abbreviation Heap := (gmap nat (Trace Vendor)).

(** Draining an iterable: a list is left as it is, an iterator object is
    left exhausted. *)
Definition drain (vendors : Iterable) (h : Heap) : Trace Vendor * Heap :=
  match vendors with
  | ListObject items => ((items, None), h)
  | IteratorObject addr =>
      (default ([], None) (h !! addr), <[addr := ([], None)]> h)
  end.

(** ['\n'.join(generate_vendor_module(vendors))] run against the heap. *)
Definition generate_text (vendors : Iterable) (h : Heap)
  : result str * Heap :=
  let '(t, h') := drain vendors h in
  (join_trace newline (generate_vendor_module t), h').

(** The generator run twice, one run after the other, on the same
    argument. *)
Definition generate_twice (vendors : Iterable) (h : Heap)
  : result str * result str :=
  let '(first, h1) := generate_text vendors h in
  let '(second, _) := generate_text vendors h1 in
  (first, second).

(** ** Loading the generated module *)

(** The consumer of the output is the Python interpreter importing
    [vendors.py].  The reader below covers the fragment of Python the
    generator writes: comment lines, the two imports, and one assignment
    of a mapping display whose entries are
    ["KEY": pnp.Vendor("NAME", "ID", datetime.date(Y, M, D)),] with
    string literals free of escapes and decimal integer literals without
    leading zeros.  On a text of this fragment the reader gives what the
    interpreter gives.  [None] says that the text is outside the fragment
    and that the reader has no answer, not that the interpreter would
    refuse it: a literal with a backslash or with more quotes is Python
    too, and the interpreter evaluates it. *)

Fixpoint expect (lit s : str) : option str :=
  match lit with
  | [] => Some s
  | c :: lit' =>
      match s with
      | x :: s' => if bool_decide (x = c) then expect lit' s' else None
      | [] => None
      end
  end.

(** Characters that cannot stand for themselves inside a ["..."] literal:
    the quote, the backslash, the line ends and NUL. *)
Definition quoting_hostile (c : Z) : bool :=
  bool_decide (c ∈ [34; 92; 10; 13; 0]).

(** The body of a string literal, after its opening quote. *)
Fixpoint read_string_body (s : str) : option (str * str) :=
  match s with
  | [] => None
  | c :: s' =>
      if bool_decide (c = 34) then Some ([], s')
      else if quoting_hostile c then None
      else '(w, rest) ← read_string_body s'; Some (c :: w, rest)
  end.

Definition read_string (s : str) : option (str * str) :=
  s ← expect [34] s; read_string_body s.

Definition ascii_digit (c : Z) : option (Decimal.uint → Decimal.uint) :=
  if bool_decide (c = 48) then Some Decimal.D0
  else if bool_decide (c = 49) then Some Decimal.D1
  else if bool_decide (c = 50) then Some Decimal.D2
  else if bool_decide (c = 51) then Some Decimal.D3
  else if bool_decide (c = 52) then Some Decimal.D4
  else if bool_decide (c = 53) then Some Decimal.D5
  else if bool_decide (c = 54) then Some Decimal.D6
  else if bool_decide (c = 55) then Some Decimal.D7
  else if bool_decide (c = 56) then Some Decimal.D8
  else if bool_decide (c = 57) then Some Decimal.D9
  else None.

(** The longest run of ASCII digits at the start of [s]. *)
Fixpoint read_digits (s : str) : Decimal.uint * str :=
  match s with
  | [] => (Decimal.Nil, [])
  | c :: s' =>
      match ascii_digit c with
      | Some d => let '(u, rest) := read_digits s' in (d u, rest)
      | None => (Decimal.Nil, s)
      end
  end.

(** A decimal integer literal: at least one digit, and a leading zero
    only when the literal is [0]. *)
Definition read_int (s : str) : option (Z * str) :=
  let '(u, rest) := read_digits s in
  match u with
  | Decimal.Nil => None
  | Decimal.D0 Decimal.Nil => Some (0, rest)
  | Decimal.D0 _ => None
  | _ => Some (Z.of_uint u, rest)
  end.

Definition result_to_option {A} (r : result A) : option A :=
  match r with
  | Return a => Some a
  | Raise _ => None
  end.

(** One entry of the mapping display. *)
Definition read_entry (line : str) : option (str * Vendor) :=
  s ← expect (py "    ") line;
  '(key, s) ← read_string s;
  s ← expect (py ": pnp.Vendor(") s;
  '(name, s) ← read_string s;
  s ← expect (py ", ") s;
  '(id, s) ← read_string s;
  s ← expect (py ", datetime.date(") s;
  '(y, s) ← read_int s;
  s ← expect (py ", ") s;
  '(m, s) ← read_int s;
  s ← expect (py ", ") s;
  '(d, s) ← read_int s;
  s ← expect (py ")),") s;
  guard (s = []);;
  date ← result_to_option (datetime_date y m d);
  Some (key, mkVendor name id date).

Fixpoint split_on (sep : Z) (s : str) : list str :=
  match s with
  | [] => [[]]
  | c :: s' =>
      if bool_decide (c = sep) then [] :: split_on sep s'
      else match split_on sep s' with
           | l :: ls => (c :: l) :: ls
           | [] => [[c]]
           end
  end.

Inductive load_state :=
| BeforeMapping
| InMapping (m : gmap str Vendor)
| AfterMapping (m : gmap str Vendor).

Definition is_comment (line : str) : bool :=
  match line with
  | c :: _ => bool_decide (c = 35)
  | [] => false
  end.

Definition skippable (line : str) : bool :=
  is_comment line || bool_decide (line = []).

(** One line of the module: a later entry for a key replaces an earlier
    one, as in a Python mapping display. *)
Definition load_line (st : load_state) (line : str) : option load_state :=
  match st with
  | BeforeMapping =>
      if skippable line
         || bool_decide (line = py "import datetime")
         || bool_decide (line = py "from bios_pnp import pnp")
      then Some BeforeMapping
      else if bool_decide (line = py "VENDORS = {") then Some (InMapping ∅)
      else None
  | InMapping m =>
      if bool_decide (line = py "}") then Some (AfterMapping m)
      else '(key, v) ← read_entry line; Some (InMapping (<[key := v]> m))
  | AfterMapping m =>
      if skippable line then Some (AfterMapping m) else None
  end.

Fixpoint load_lines (st : load_state) (lines : list str)
  : option load_state :=
  match lines with
  | [] => Some st
  | line :: lines' => st' ← load_line st line; load_lines st' lines'
  end.

(** The value of [VENDORS] after the module text has been loaded. *)
Definition load_module (text : str) : option (gmap str Vendor) :=
  st ← load_lines BeforeMapping (split_on 10 text);
  match st with
  | AfterMapping m => Some m
  | _ => None
  end.

(** The mapping a sequence of records stands for: keyed by [pnp_id], a
    later record replacing an earlier one with the same key. *)
Definition vendors_mapping (vendors : list Vendor) : gmap str Vendor :=
  foldl (λ m v, <[pnp_id v := v]> m) ∅ vendors.

(** ** The words of the specification *)

(** A code point that is one of the ASCII digits, with its value. *)
Definition ascii_digit_value (c : Z) : option Z :=
  if bool_decide (48 ≤ c ≤ 57) then Some (c - 48) else None.

(** A date that exists in the calendar, years 1 to 9999. *)
Definition calendar_date (d : date) : Prop :=
  1 ≤ year d ≤ 9999 ∧ 1 ≤ month d ≤ 12 ∧
  1 ≤ day d ≤
    (if bool_decide (month d ∈ [4; 6; 9; 11]) then 30
     else if bool_decide (month d = 2) then
       (if bool_decide (year d mod 4 = 0 ∧
                        (year d mod 100 ≠ 0 ∨ year d mod 400 = 0))
        then 29 else 28)
     else 31).

(** [s] is [MM/DD/YYYY], two digits, two digits and four digits, and
    stands for the calendar date [dt]. *)
Definition MM_DD_YYYY (s : str) (dt : date) : Prop :=
  ∃ m1 m2 d1 d2 y1 y2 y3 y4 : Z,
    s = [m1; m2; 47; d1; d2; 47; y1; y2; y3; y4] ∧
    (∃ a b, ascii_digit_value m1 = Some a ∧ ascii_digit_value m2 = Some b ∧
            month dt = 10 * a + b) ∧
    (∃ a b, ascii_digit_value d1 = Some a ∧ ascii_digit_value d2 = Some b ∧
            day dt = 10 * a + b) ∧
    (∃ a b c d, ascii_digit_value y1 = Some a ∧ ascii_digit_value y2 = Some b ∧
                ascii_digit_value y3 = Some c ∧ ascii_digit_value y4 = Some d ∧
                year dt = 1000 * a + 100 * b + 10 * c + d) ∧
    calendar_date dt.

(** A string of exactly three ASCII characters. *)
Definition three_ascii (s : str) : Prop :=
  length s = 3%nat ∧ Forall (λ c, 0 ≤ c < 128) s.

(** A row with exactly three cells, each with text: its three texts. *)
Definition three_cells (row : Element) (t1 t2 t3 : str) : Prop :=
  ∃ c1 c2 c3, row_tds row = [c1; c2; c3] ∧
    text c1 = Some t1 ∧ text c2 = Some t2 ∧ text c3 = Some t3.

(** A relevant row: exactly three cells. *)
Definition relevant (row : Element) : Prop := length (row_tds row) = 3%nat.

#[global] Instance relevant_dec row : Decision (relevant row).
Proof. unfold relevant. apply _. Defined.

(** A valid data row and the record the specification expects for it. *)
Definition valid_row (row : Element) (v : Vendor) : Prop :=
  ∃ t1 t2 t3, three_cells row t1 t2 t3 ∧
    name v = strip t1 ∧ pnp_id v = strip t2 ∧
    three_ascii (strip t2) ∧ MM_DD_YYYY (strip t3) (approval_date v).

(** What a regular expression matches, as a set of texts. *)
Fixpoint matches (r : regex) (w : str) : Prop :=
  match r with
  | Chr c => w = [c]
  | Range lo hi => ∃ x, w = [x] ∧ lo ≤ x ≤ hi
  | AnyDigit => ∃ x, w = [x] ∧ is_Some (Py_UNICODE_TODECIMAL x)
  | Cat r1 r2 => ∃ w1 w2, w = w1 ++ w2 ∧ matches r1 w1 ∧ matches r2 w2
  | Alt r1 r2 => matches r1 w ∨ matches r2 w
  end.

(** A decimal digit, as [\d] understands it. *)
Definition digit (c : Z) : Prop := is_Some (Py_UNICODE_TODECIMAL c).

(** The shape the specification gives for a date: two digits, a slash,
    two digits, a slash, four digits. *)
Definition two_two_four (s : str) : Prop :=
  ∃ m1 m2 d1 d2 y1 y2 y3 y4 : Z,
    s = [m1; m2; 47; d1; d2; 47; y1; y2; y3; y4] ∧
    Forall digit [m1; m2; d1; d2; y1; y2; y3; y4].

(** A month from 1 to 12 written with one or two digits. *)
Definition month_text (w : str) : Prop :=
  (∃ a, w = [a] ∧ 49 ≤ a ≤ 57) ∨
  (∃ a, w = [48; a] ∧ 49 ≤ a ≤ 57) ∨
  (∃ a, w = [49; a] ∧ 48 ≤ a ≤ 50).

(** A day from 1 to 31 written with one or two digits; a blank may stand
    for a leading zero, and the second digit of 10 to 29 may be any
    decimal digit of Unicode. *)
Definition day_text (w : str) : Prop :=
  (∃ a, w = [a] ∧ 49 ≤ a ≤ 57) ∨
  (∃ a, w = [48; a] ∧ 49 ≤ a ≤ 57) ∨
  (∃ a, w = [32; a] ∧ 49 ≤ a ≤ 57) ∨
  (∃ a b, w = [a; b] ∧ 49 ≤ a ≤ 50 ∧ digit b) ∨
  (∃ a, w = [51; a] ∧ 48 ≤ a ≤ 49).

(** A year written with four decimal digits. *)
Definition year_text (w : str) : Prop :=
  ∃ a b c d, w = [a; b; c; d] ∧ digit a ∧ digit b ∧ digit c ∧ digit d.

(** The shape [strptime] takes for ['%m/%d/%Y']: month, slash, day,
    slash, year, months and days of one or two digits. *)
Definition M_D_YYYY (s : str) : Prop :=
  ∃ m d y, s = m ++ [47] ++ d ++ [47] ++ y ∧
           month_text m ∧ day_text d ∧ year_text y.

(** The fixed lines of a generated module. *)
Definition preamble : list str :=
  [py "# THIS FILE WAS AUTOGENERATED BY make_vendor_list.py!";
   py "# pylint: disable=line-too-long,missing-docstring,too-many-lines";
   py "# yapf: disable";
   py "import datetime";
   py "from bios_pnp import pnp"].
Definition opening : str := py "VENDORS = {".
Definition closing : list str := [py "}"; py "# yapf: enable"; py ""].

(** What the specification assumes of a record handed to the generator:
    no character in [name] or [pnp_id] that a quoted literal cannot hold
    as it is, and a date that exists. *)
Definition safe_vendor (v : Vendor) : Prop :=
  Forall (λ c, quoting_hostile c = false) (name v) ∧
  Forall (λ c, quoting_hostile c = false) (pnp_id v) ∧
  calendar_date (approval_date v).

(** Text that does not go on with a digit. *)
Definition no_digit_ahead (rest : str) : Prop :=
  match rest with
  | c :: _ => ascii_digit c = None
  | [] => True
  end.

(** ** Documents used as examples *)

Definition cell (t : string) : Element := mkElement td (Some (py t)) [].
Definition empty_cell : Element := mkElement td None [].
Definition tr (cells : list Element) : Element :=
  mkElement (py "tr") None cells.

(** [<html><body><table><tbody> rows </tbody></table></body></html>] *)
Definition document (rows : list Element) : Element :=
  mkElement (py "html") None
    [mkElement (py "body") None
       [mkElement (py "table") None [mkElement (py "tbody") None rows]]].

Definition acme_row : Element :=
  tr [cell " Acme Corp "; cell "ACM"; cell "01/15/2016"].
Definition beta_row : Element :=
  tr [cell "Beta Inc"; cell "BET"; cell "06/01/2020"].
Definition spacer_row : Element := tr [cell "Company"; cell "PNP ID"].

Definition short_id_row : Element :=
  tr [cell "Short Ltd"; cell "AB"; cell "01/01/2016"].
Definition empty_id_row : Element :=
  tr [cell "Nameless"; empty_cell; cell "01/01/2016"].

Definition iso_date_row : Element :=
  tr [cell "Iso GmbH"; cell "ISO"; cell "2016-01-01"].
Definition one_digit_date_row : Element :=
  tr [cell "Acme Corp"; cell "ACM"; cell "1/5/2016"].

(** A row whose ID is [AB] followed by the copyright sign, U+00A9. *)
Definition non_ascii_id_row : Element :=
  tr [cell "Copy Ltd"; mkElement td (Some [65; 66; 169]) [];
      cell "01/01/2016"].
Definition long_id_row : Element :=
  tr [cell "Long Ltd"; cell "ABCD"; cell "01/01/2016"].

(** UTF-8 encodes every code point but the surrogates. *)
Definition utf8 (c : Z) : bool :=
  bool_decide (0 ≤ c < 55296 ∨ 57343 < c ≤ 1114111).

(** A run of the script on the command line [pnp.xls], a file that holds
    the tree [root], with UTF-8 as the encoding of the output. *)
Definition run_on (root : Element) : Environment :=
  mkEnv (Return (py "pnp.xls")) (λ _, Return root) utf8.

Definition acme : Vendor :=
  mkVendor (py "Acme Corp") (py "ACM") (mkdate 2016 1 15).
Definition beta : Vendor :=
  mkVendor (py "Beta Inc") (py "BET") (mkdate 2020 6 1).

(** ** Further words for the properties below *)

(** [w] is the number [n] written with one or two ASCII digits. *)
Definition one_or_two_digits (w : str) (n : Z) : Prop :=
  (∃ a, w = [a] ∧ ascii_digit_value a = Some n) ∨
  (∃ a b va vb, w = [a; b] ∧ ascii_digit_value a = Some va ∧
                ascii_digit_value b = Some vb ∧ n = 10 * va + vb).

(** [w] is the number [n] written with four ASCII digits. *)
Definition four_digits (w : str) (n : Z) : Prop :=
  ∃ a b c d va vb vc vd, w = [a; b; c; d] ∧
    ascii_digit_value a = Some va ∧ ascii_digit_value b = Some vb ∧
    ascii_digit_value c = Some vc ∧ ascii_digit_value d = Some vd ∧
    n = 1000 * va + 100 * vb + 10 * vc + vd.

(** A text with no blank at either end. *)
Definition trimmed (w : str) : Prop :=
  (∀ c, head w = Some c → Py_UNICODE_ISSPACE c = false) ∧
  (∀ c, last w = Some c → Py_UNICODE_ISSPACE c = false).

(** The record the body of the loop builds from a row. *)
Definition row_record (row : Element) (v : Vendor) : Prop :=
  ∃ t1 t2 t3, three_cells row t1 t2 t3 ∧
    name v = strip t1 ∧ pnp_id v = strip t2 ∧
    strptime_mdY (strip t3) = Return (approval_date v).

(** What holds of every record the parser builds. *)
Definition well_formed_record (v : Vendor) : Prop :=
  three_ascii (pnp_id v) ∧ calendar_date (approval_date v) ∧
  trimmed (name v) ∧ trimmed (pnp_id v).

Definition leap_day_row : Element :=
  tr [cell "Leap Ltd"; cell "AB"; cell "02/29/2019"].
Definition mixed_rows : list Element :=
  [acme_row; spacer_row; one_digit_date_row; short_id_row; beta_row].
Definition acme_1_5 : Vendor :=
  mkVendor (py "Acme Corp") (py "ACM") (mkdate 2016 1 5).


(** ** Words for the table, the ID check and the integers *)

(** The cells of a row: its children tagged [td], in order. *)
Definition td_cells (row : Element) : list Element :=
  filter (λ c, tag c = py "td") (children row).

(** A row with exactly three cells. *)
Definition has_three_cells (row : Element) : Prop :=
  length (td_cells row) = 3%nat.



#[global] Instance has_three_cells_dec row : Decision (has_three_cells row).
Proof. unfold has_three_cells. apply _. Defined.

Definition nameless_short_id_row : Element :=
  tr [empty_cell; cell "AB"; cell "01/01/2016"].
Definition short_id_iso_date_row : Element :=
  tr [cell "Short Ltd"; cell "AB"; cell "2016-01-01"].

(** A text all of whose characters are ASCII. *)
Definition all_ascii (s : str) : Prop := Forall (λ c, 0 ≤ c < 128) s.

(** The exception of the check of the ID, for an ID that is not three
    ASCII characters: the parser's own [ValueError] when the ID is ASCII,
    the [UnicodeEncodeError] of [encode] when it is not. *)
Definition id_validation_failure (id : str) : Exception :=
  if decide (all_ascii id) then ValueError PnpIdLength
  else UnicodeEncodeError.

(** [w] writes the natural number [n] in decimal: ASCII digits, at least
    one, no zero in front unless the number is zero, the value of the
    digits read from the left. *)
Definition decimal_numeral (w : str) (n : Z) : Prop :=
  w ≠ [] ∧ Forall (λ c, 48 ≤ c ≤ 57) w ∧
  (head w = Some 48 → w = [48]) ∧
  foldl (λ acc c, 10 * acc + (c - 48)) 0 w = n.

(** [w] writes the integer [n]: its decimal numeral, after a minus sign
    when it is negative. *)
Definition integer_text (w : str) (n : Z) : Prop :=
  (0 ≤ n ∧ decimal_numeral w n) ∨
  (n < 0 ∧ ∃ w', w = 45 :: w' ∧ decimal_numeral w' (- n)).

(** * Properties *)

(** ** Digits and blanks *)

Arguments Py_UNICODE_TODECIMAL : simpl never.
Arguments Py_UNICODE_ISSPACE : simpl never.

Ltac split_digit c :=
  let H := fresh in
  assert (c = 48 ∨ c = 49 ∨ c = 50 ∨ c = 51 ∨ c = 52 ∨ c = 53 ∨ c = 54 ∨
          c = 55 ∨ c = 56 ∨ c = 57) as H by lia;
  destruct H as [->|[->|[->|[->|[->|[->|[->|[->|[->| ->]]]]]]]]].

Lemma ascii_digit_value_range c a :
  ascii_digit_value c = Some a → 48 ≤ c ≤ 57 ∧ a = c - 48.
Proof.
  unfold ascii_digit_value. case_bool_decide; [|done].
  intros [= <-]. lia.
Qed.

Lemma ascii_digit_decimal c a :
  ascii_digit_value c = Some a → Py_UNICODE_TODECIMAL c = Some a.
Proof.
  intros [Hc ->]%ascii_digit_value_range.
  split_digit c; reflexivity.
Qed.

Lemma ascii_digit_not_space c a :
  ascii_digit_value c = Some a → Py_UNICODE_ISSPACE c = false.
Proof.
  intros [Hc ->]%ascii_digit_value_range.
  split_digit c; reflexivity.
Qed.

Lemma strip_four a b c d :
  Py_UNICODE_ISSPACE a = false → Py_UNICODE_ISSPACE d = false →
  strip [a; b; c; d] = [a; b; c; d].
Proof.
  intros Ha Hd. unfold strip, rstrip. cbn [lstrip]. rewrite Ha.
  change (reverse [a; b; c; d]) with [d; c; b; a].
  cbn [lstrip]. rewrite Hd. reflexivity.
Qed.

(** ** Trimming *)

Lemma lstrip_spec s :
  ∃ l, s = l ++ lstrip s ∧
       Forall (λ c, Py_UNICODE_ISSPACE c = true) l ∧
       ∀ c, head (lstrip s) = Some c → Py_UNICODE_ISSPACE c = false.
Proof.
  induction s as [|x s (l & Hs & Hl & Hhead)]; cbn [lstrip].
  - exists []. split; [done|]. split; [constructor|]. intros c [=].
  - destruct (Py_UNICODE_ISSPACE x) eqn:Hx.
    + exists (x :: l). split; [cbn; congruence|].
      split; [by constructor|done].
    + exists []. split; [done|]. split; [constructor|].
      by intros c [= <-].
Qed.

Lemma rstrip_spec s :
  ∃ r, s = rstrip s ++ r ∧
       Forall (λ c, Py_UNICODE_ISSPACE c = true) r ∧
       ∀ c, last (rstrip s) = Some c → Py_UNICODE_ISSPACE c = false.
Proof.
  unfold rstrip. destruct (lstrip_spec (reverse s)) as (l & Hs & Hl & Hhead).
  exists (reverse l). split; [|split].
  - rewrite <- reverse_app, <- Hs. by rewrite reverse_involutive.
  - by apply Forall_reverse.
  - intros c Hc. apply Hhead. by rewrite last_reverse in Hc.
Qed.

(** [strip] takes blanks, and only blanks, off both ends, and leaves a
    text that neither starts nor ends with a blank. *)
Lemma strip_spec s :
  ∃ l r, s = l ++ strip s ++ r ∧
         Forall (λ c, Py_UNICODE_ISSPACE c = true) l ∧
         Forall (λ c, Py_UNICODE_ISSPACE c = true) r ∧
         (∀ c, head (strip s) = Some c → Py_UNICODE_ISSPACE c = false) ∧
         (∀ c, last (strip s) = Some c → Py_UNICODE_ISSPACE c = false).
Proof.
  unfold strip.
  destruct (lstrip_spec s) as (l & Hs & Hl & Hhead).
  destruct (rstrip_spec (lstrip s)) as (r & Ht & Hr & Hlast).
  exists l, r. split; [by rewrite <- Ht|].
  split; [done|]. split; [done|]. split; [|done].
  intros c Hc. apply Hhead. rewrite Ht.
  destruct (rstrip (lstrip s)); [done|]. done.
Qed.

(** ** [strptime] on [MM/DD/YYYY] *)

Lemma month_group m1 m2 a b rest :
  ascii_digit_value m1 = Some a → ascii_digit_value m2 = Some b →
  1 ≤ 10 * a + b ≤ 12 →
  group_then re_m slash (m1 :: m2 :: 47 :: rest) = [([m1; m2], rest)] ∧
  int [m1; m2] = Return (10 * a + b).
Proof.
  intros [H1 ->]%ascii_digit_value_range [H2 ->]%ascii_digit_value_range Hm.
  split_digit m1; try lia; split_digit m2; try lia; split; reflexivity.
Qed.

Lemma day_group d1 d2 a b rest :
  ascii_digit_value d1 = Some a → ascii_digit_value d2 = Some b →
  1 ≤ 10 * a + b ≤ 31 →
  group_then re_d slash (d1 :: d2 :: 47 :: rest) = [([d1; d2], rest)] ∧
  int [d1; d2] = Return (10 * a + b).
Proof.
  intros [H1 ->]%ascii_digit_value_range [H2 ->]%ascii_digit_value_range Hm.
  split_digit d1; try lia; split_digit d2; try lia; split; reflexivity.
Qed.

Lemma year_group y1 y2 y3 y4 a b c d :
  ascii_digit_value y1 = Some a → ascii_digit_value y2 = Some b →
  ascii_digit_value y3 = Some c → ascii_digit_value y4 = Some d →
  rx_match re_Y [y1; y2; y3; y4] = [([y1; y2; y3; y4], [])] ∧
  int [y1; y2; y3; y4] = Return (1000 * a + 100 * b + 10 * c + d).
Proof.
  intros H1 H2 H3 H4. split.
  - do 4 (cbn; rewrite bool_decide_true
      by (erewrite ascii_digit_decimal by eassumption; eauto)).
    reflexivity.
  - unfold int. rewrite strip_four by eauto using ascii_digit_not_space.
    cbn. rewrite (ascii_digit_decimal _ _ H1). cbn.
    rewrite (ascii_digit_decimal _ _ H2). cbn.
    rewrite (ascii_digit_decimal _ _ H3). cbn.
    rewrite (ascii_digit_decimal _ _ H4). f_equal. lia.
Qed.

Lemma days_in_month_spec y m :
  1 ≤ m ≤ 12 →
  _days_in_month y m =
    (if bool_decide (m ∈ [4; 6; 9; 11]) then 30
     else if bool_decide (m = 2) then
       (if bool_decide (y mod 4 = 0 ∧ (y mod 100 ≠ 0 ∨ y mod 400 = 0))
        then 29 else 28)
     else 31).
Proof.
  intros Hm. unfold _days_in_month, _is_leap.
  assert (m = 1 ∨ m = 2 ∨ m = 3 ∨ m = 4 ∨ m = 5 ∨ m = 6 ∨ m = 7 ∨ m = 8 ∨
          m = 9 ∨ m = 10 ∨ m = 11 ∨ m = 12) as Hcases by lia.
  destruct Hcases as [->|[->|[->|[->|[->|[->|[->|[->|[->|[->|[->| ->]]]]]]]]]]];
    try reflexivity.
  rewrite (bool_decide_true (2 = 2)) by done.
  assert (bool_decide (2 ∈ [4; 6; 9; 11]) = false) as -> by reflexivity.
  cbn [andb]. 
  repeat case_bool_decide; cbn; try done; tauto.
Qed.

Lemma datetime_date_calendar y m d :
  calendar_date (mkdate y m d) → datetime_date y m d = Return (mkdate y m d).
Proof.
  unfold calendar_date, datetime_date. cbn [year month day].
  intros (Hy & Hm & Hd).
  rewrite (bool_decide_true (1 ≤ y ≤ 9999)) by done.
  rewrite (bool_decide_true (1 ≤ m ≤ 12)) by done. cbn [negb].
  rewrite days_in_month_spec by done.
  rewrite bool_decide_true by done. done.
Qed.

Lemma strptime_MM_DD_YYYY s dt :
  MM_DD_YYYY s dt → strptime_mdY s = Return dt.
Proof.
  intros (m1 & m2 & d1 & d2 & y1 & y2 & y3 & y4 & -> & Hm & Hd & Hy & Hcal).
  destruct Hm as (ma & mb & Hm1 & Hm2 & Hmv).
  destruct Hd as (da & db & Hd1 & Hd2 & Hdv).
  destruct Hy as (ya & yb & yc & yd & Hy1 & Hy2 & Hy3 & Hy4 & Hyv).
  destruct dt as [y m d]. cbn in *.
  destruct Hcal as (Hyr & Hmr & Hdr). cbn in *.
  assert (1 ≤ 10 * da + db ≤ 31) as Hd31.
  { split; [lia|]. destruct Hdr as [_ Hdr]. revert Hdr.
    repeat case_bool_decide; lia. }
  destruct (month_group m1 m2 ma mb [d1; d2; 47; y1; y2; y3; y4] Hm1 Hm2)
    as [Hmg Hmi]; [lia|].
  destruct (day_group d1 d2 da db [y1; y2; y3; y4] Hd1 Hd2 Hd31) as [Hdg Hdi].
  destruct (year_group _ _ _ _ _ _ _ _ Hy1 Hy2 Hy3 Hy4) as [Hyg Hyi].
  unfold strptime_mdY, format_regex_match.
  rewrite Hmg. cbn [mbind list_bind]. rewrite Hdg. cbn [mbind list_bind].
  rewrite Hyg. cbn [mbind list_bind app head bool_decide negb].
  rewrite bool_decide_true by done. cbn [negb].
  rewrite Hyi, Hmi, Hdi. cbn.
  rewrite <- Hyv, <- Hmv, <- Hdv.
  apply datetime_date_calendar. done.
Qed.

Lemma int_raises s e : int s = Raise e → ∃ why, e = ValueError why.
Proof.
  unfold int. destruct (strip s) as [|c t]; [intros [= <-]; eauto|].
  generalize (c :: t). intros l.
  assert (∀ acc : result Z,
            (∀ e, acc = Raise e → ∃ why, e = ValueError why) →
            foldl (λ acc c, a ← acc;
                     match Py_UNICODE_TODECIMAL c with
                     | Some d => Return (10 * a + d)
                     | None => Raise (ValueError InvalidLiteralForInt)
                     end) acc l = Raise e →
            ∃ why, e = ValueError why) as Hfold.
  { induction l as [|x l IH]; intros acc Hacc; cbn; [by apply Hacc|].
    apply IH. intros e'. destruct acc as [a|e0]; cbn.
    - destruct (Py_UNICODE_TODECIMAL x); intros [= <-]; eauto.
    - intros [= <-]. by apply Hacc. }
  apply Hfold. discriminate.
Qed.

Lemma datetime_date_raises y m d e :
  datetime_date y m d = Raise e → ∃ why, e = ValueError why.
Proof.
  unfold datetime_date.
  repeat (case_match; [intros [= <-]; eauto|]). discriminate.
Qed.

(** Whatever [strptime] raises is a [ValueError]. *)
Lemma strptime_raises s e :
  strptime_mdY s = Raise e → ∃ why, e = ValueError why.
Proof.
  unfold strptime_mdY.
  destruct (format_regex_match s) as [[[[m d] y] rest]|];
    [|intros [= <-]; eauto].
  case_match; [intros [= <-]; eauto|].
  destruct (int y) as [yv|ey] eqn:Hy; cbn;
    [|intros [= <-]; eauto using int_raises].
  destruct (int m) as [mv|em] eqn:Hm; cbn;
    [|intros [= <-]; eauto using int_raises].
  destruct (int d) as [dv|ed] eqn:Hd; cbn;
    [|intros [= <-]; eauto using int_raises].
  apply datetime_date_raises.
Qed.

(** ** The rows of the parser *)

Lemma stripped_texts_three c1 c2 c3 t1 t2 t3 :
  text c1 = Some t1 → text c2 = Some t2 → text c3 = Some t3 →
  stripped_texts [c1; c2; c3] = Return [strip t1; strip t2; strip t3].
Proof. intros H1 H2 H3. cbn. rewrite H1, H2, H3. reflexivity. Qed.

Lemma three_cells_relevant row t1 t2 t3 :
  three_cells row t1 t2 t3 → relevant row.
Proof. intros (c1 & c2 & c3 & Htds & _). unfold relevant. by rewrite Htds. Qed.

Lemma relevant_len row : relevant row ↔ len (row_tds row) = 3.
Proof. unfold relevant, len. lia. Qed.

Lemma encode_ascii_three s :
  three_ascii s → encode_ascii s = Return s ∧ len s = 3.
Proof.
  intros [Hlen Hall]. unfold encode_ascii, len. split; [|lia].
  assert (forallb (λ c, bool_decide (0 ≤ c < 128)) s = true) as ->; [|done].
  apply Is_true_true, forallb_True.
  eapply Forall_impl; [done|]. intros c Hc. cbn in Hc.
  by apply bool_decide_pack.
Qed.

Lemma row_vendor_valid row v :
  valid_row row v → row_vendor (row_tds row) = Return v.
Proof.
  intros (t1 & t2 & t3 & (c1 & c2 & c3 & -> & H1 & H2 & H3) &
          Hname & Hid & Hascii & Hdate).
  unfold row_vendor. rewrite (stripped_texts_three _ _ _ _ _ _ H1 H2 H3).
  cbn. rewrite (strptime_MM_DD_YYYY _ _ Hdate). cbn.
  destruct (encode_ascii_three _ Hascii) as [-> Hlen]. cbn.
  rewrite bool_decide_true by done. cbn.
  destruct v as [n i d]. cbn in *. by subst.
Qed.

Lemma for_row_in_skip row rows :
  ¬ relevant row → for_row_in (row :: rows) = for_row_in rows.
Proof.
  intros Hrow. cbn [for_row_in]. rewrite bool_decide_false; [done|].
  by rewrite <- relevant_len.
Qed.

Lemma for_row_in_yield row rows v :
  relevant row → row_vendor (row_tds row) = Return v →
  for_row_in (row :: rows) = yield v (for_row_in rows).
Proof.
  intros Hrow Hv. cbn [for_row_in].
  rewrite bool_decide_true by by apply relevant_len.
  by rewrite Hv.
Qed.

Lemma for_row_in_raise row rows e :
  relevant row → row_vendor (row_tds row) = Raise e →
  for_row_in (row :: rows) = ([], Some e).
Proof.
  intros Hrow Hv. cbn [for_row_in].
  rewrite bool_decide_true by by apply relevant_len.
  by rewrite Hv.
Qed.

(** Rows after a run that ended normally are run in turn. *)
Lemma for_row_in_app pre post vs :
  for_row_in pre = (vs, None) →
  for_row_in (pre ++ post) =
    (vs ++ (for_row_in post).1, (for_row_in post).2).
Proof.
  revert vs. induction pre as [|row pre IH]; intros vs.
  - intros [= <-]. cbn [app]. by destruct (for_row_in post).
  - cbn [for_row_in app]. case_bool_decide; [|by apply IH].
    destruct (row_vendor (row_tds row)) as [v|e]; [|done].
    destruct (for_row_in pre) as [vs' stop] eqn:Hpre. unfold yield. cbn.
    intros [= <- ->]. by rewrite (IH vs').
Qed.

Lemma for_row_in_valid rows :
  Forall (λ row, relevant row → ∃ v, valid_row row v) rows →
  ∃ vs, for_row_in rows = (vs, None) ∧
        Forall2 valid_row (filter relevant rows) vs.
Proof.
  induction 1 as [|row rows Hrow _ (vs & Hrun & Hvs)].
  - exists []. split; [done|constructor].
  - destruct (decide (relevant row)) as [Hrel|Hrel].
    + destruct (Hrow Hrel) as [v Hv].
      exists (v :: vs). split.
      * rewrite (for_row_in_yield _ _ v) by eauto using row_vendor_valid.
        by rewrite Hrun.
      * rewrite filter_cons_True by done. by constructor.
    + exists vs. split.
      * by rewrite for_row_in_skip.
      * by rewrite filter_cons_False.
Qed.

(** ** The rows of a document *)

Lemma iter_unfold e : iter e = e :: (children e ≫= iter).
Proof.
  by destruct e. Qed.

Lemma filter_has_tag_none t l :
  Forall (λ e, tag e ≠ t) l → List.filter (has_tag t) l = [].
Proof.
  induction 1 as [|e l He _ IH]; [done|]. cbn [List.filter].
  unfold has_tag at 1. by rewrite bool_decide_false.
Qed.

Lemma filter_has_tag_all t l :
  Forall (λ e, tag e = t) l → List.filter (has_tag t) l = l.
Proof.
  induction 1 as [|e l He _ IH]; [done|]. cbn [List.filter].
  unfold has_tag at 1. rewrite bool_decide_true by done. by rewrite IH.
Qed.

Lemma select_child_single t e :
  select (ChildStep t) [e] = List.filter (has_tag t) (children e).
Proof. cbn. apply app_nil_r. Qed.

Lemma iter_single e : [e] ≫= iter = e :: (children e ≫= iter).
Proof. cbn [mbind list_bind]. by rewrite app_nil_r, iter_unfold. Qed.

(** The rows of a plain document are its [tr] elements in document order,
    as long as no [body] element is nested inside them. *)
Lemma findall_document rows :
  Forall (λ row, tag row = py "tr") rows →
  Forall (λ e, tag e ≠ py "body") (rows ≫= iter) →
  findall (document rows) rows_path = rows.
Proof.
  intros Htr Hbody. unfold findall, rows_path, document.
  set (tbody := mkElement (py "tbody") None rows).
  set (table := mkElement (py "table") None [tbody]).
  set (body := mkElement (py "body") None [table]).
  cbn [foldl]. 
  assert (select (DescendantStep [98; 111; 100; 121])
            (select SelfStep [mkElement (py "html") None [body]]) = [body])
    as ->.
  { cbn [select mbind list_bind children]. rewrite !app_nil_r.
    rewrite iter_unfold. subst body. cbn [children].
    rewrite iter_single. subst table. cbn [children].
    rewrite iter_single. subst tbody. cbn [children].
    cbn [List.filter]. 
    change (has_tag _ (mkElement (py "body") _ _)) with true.
    change (has_tag _ (mkElement (py "table") _ _)) with false.
    change (has_tag _ (mkElement (py "tbody") _ _)) with false.
    cbv iota. by rewrite filter_has_tag_none. }
  rewrite select_child_single. subst body. cbn [children List.filter].
  change (has_tag _ table) with true. cbv iota.
  rewrite select_child_single. subst table. cbn [children List.filter].
  change (has_tag _ tbody) with true. cbv iota.
  rewrite select_child_single. subst tbody. cbn [children].
  by apply filter_has_tag_all.
Qed.

Lemma for_row_in_all_valid rows vs :
  Forall2 valid_row rows vs → for_row_in rows = (vs, None).
Proof.
  induction 1 as [|row v rows vs Hv _ IH]; [done|].
  rewrite (for_row_in_yield _ _ v), IH; [done| |by apply row_vendor_valid].
  destruct Hv as (t1 & t2 & t3 & Hcells & _).
  by eapply three_cells_relevant.
Qed.

Lemma for_row_in_drop pre row post :
  ¬ relevant row → for_row_in (pre ++ row :: post) = for_row_in (pre ++ post).
Proof.
  intros Hrow. induction pre as [|r pre IH]; cbn [app].
  - by apply for_row_in_skip.
  - cbn [for_row_in]. by rewrite IH.
Qed.

(** The run up to a relevant row that raises. *)
Lemma for_row_in_stop pre row post vs e :
  for_row_in pre = (vs, None) → relevant row →
  row_vendor (row_tds row) = Raise e →
  for_row_in (pre ++ row :: post) = (vs, Some e).
Proof.
  intros Hpre Hrow He. rewrite (for_row_in_app _ _ _ Hpre).
  rewrite (for_row_in_raise _ _ _ Hrow He). cbn. by rewrite app_nil_r.
Qed.

(** ** The claims about the parser *)

Ltac by_decide := apply (bool_decide_unpack _); vm_compute; exact I.

Ltac valid_example_row :=
  unfold valid_row, three_cells;
  do 3 eexists; split;
  [do 3 eexists; split; [vm_compute; reflexivity|];
   repeat split; reflexivity|];
  split; [vm_compute; reflexivity|];
  split; [vm_compute; reflexivity|];
  split; [unfold three_ascii; by_decide|];
  unfold MM_DD_YYYY; do 8 eexists;
  split; [vm_compute; reflexivity|];
  split; [do 2 eexists; repeat split; vm_compute; reflexivity|];
  split; [do 2 eexists; repeat split; vm_compute; reflexivity|];
  split; [do 4 eexists; repeat split; vm_compute; reflexivity|];
  unfold calendar_date; by_decide.

(** The loop on the rows [findall] gives: when every row with three cells
    is a valid row, one record per such row and no exception. *)
Lemma parse_spreadsheet_valid_rows (root : Element) :
  Forall (λ row, relevant row → ∃ v, valid_row row v)
         (findall root rows_path) →
  ∃ vs, parse_spreadsheet (Return root) = (vs, None) ∧
        Forall2 valid_row (filter relevant (findall root rows_path)) vs.
Proof. intros Hrows. cbn [parse_spreadsheet]. by apply for_row_in_valid. Qed.

(** ** Trimmed texts and cells, as the specification has them *)













Lemma encode_ascii_not_three s :
  ¬ three_ascii s →
  (Forall (λ c, 0 ≤ c < 128) s →
     encode_ascii s = Return s ∧ len s ≠ 3) ∧
  (¬ Forall (λ c, 0 ≤ c < 128) s → encode_ascii s = Raise UnicodeEncodeError).
Proof.
  intros Hbad. unfold encode_ascii.
  destruct (forallb _ s) eqn:Hall.
  - apply Is_true_true, forallb_True in Hall.
    assert (Forall (λ c, 0 ≤ c < 128) s) as Hascii.
    { eapply Forall_impl; [done|]. intros c Hc. cbn in Hc.
      by apply bool_decide_unpack in Hc. }
    split; [|done]. intros _. split; [done|].
    unfold len. intros Hlen. apply Hbad. split; [lia|done].
  - split; [|done]. intros Hascii.
    assert (forallb (λ c, bool_decide (0 ≤ c < 128)) s = true) as Hall'.
    { apply Is_true_true, forallb_True.
      eapply Forall_impl; [done|]. intros c Hc. cbn in Hc.
      by apply bool_decide_pack. }
    congruence.
Qed.

(** A row with three cells of text whose trimmed ID is not three ASCII
    characters stops the loop with an exception of class [ValueError]:
    that of [strptime] when the date does not parse, that of the check of
    the ID when it does. *)
Lemma bad_id_fails_fast (root : Element) (pre post : list Element)
    (row : Element) (vs : list Vendor) (t1 t2 t3 : str) :
  findall root rows_path = pre ++ row :: post →
  for_row_in pre = (vs, None) →
  three_cells row t1 t2 t3 →
  ¬ three_ascii (strip t2) →
  ∃ e, parse_spreadsheet (Return root) = (vs, Some e) ∧
       isinstance_ValueError e = true ∧
       (∀ dt, strptime_mdY (strip t3) = Return dt →
          (Forall (λ c, 0 ≤ c < 128) (strip t2) →
             e = ValueError PnpIdLength) ∧
          (¬ Forall (λ c, 0 ≤ c < 128) (strip t2) →
             e = UnicodeEncodeError)).
Proof.
  intros Hrows Hpre Hcells Hbad. cbn [parse_spreadsheet]. rewrite Hrows.
  pose proof (three_cells_relevant _ _ _ _ Hcells) as Hrel.
  destruct Hcells as (c1 & c2 & c3 & Htds & H1 & H2 & H3).
  assert (∃ e, row_vendor (row_tds row) = Raise e ∧
               isinstance_ValueError e = true ∧
               (∀ dt, strptime_mdY (strip t3) = Return dt →
                  (Forall (λ c, 0 ≤ c < 128) (strip t2) →
                     e = ValueError PnpIdLength) ∧
                  (¬ Forall (λ c, 0 ≤ c < 128) (strip t2) →
                     e = UnicodeEncodeError))) as (e & He & Hclass & Hkind).
  { unfold row_vendor. rewrite Htds.
    rewrite (stripped_texts_three _ _ _ _ _ _ H1 H2 H3). cbn [mbind result_bind rbind].
    destruct (strptime_mdY (strip t3)) as [dt|e] eqn:Hdate.
    - destruct (encode_ascii_not_three _ Hbad) as [Hascii Hnot].
      destruct (decide (Forall (λ c, 0 ≤ c < 128) (strip t2))) as [Ha|Ha].
      + destruct (Hascii Ha) as [-> Hlen]. cbn [mbind result_bind rbind].
        rewrite bool_decide_false by done. cbn [negb].
        eexists. split; [done|]. split; [done|].
        intros _ _. split; [done|]. by intros [].
      + rewrite (Hnot Ha). cbn [mbind result_bind rbind].
        eexists. split; [done|]. split; [done|].
        intros _ _. split; [by intros ?|done].
    - destruct (strptime_raises _ _ Hdate) as [why ->].
      eexists. split; [done|]. split; [done|]. intros dt [=]. }
  exists e. split; [|done].
  by apply for_row_in_stop.
Qed.

(** C2, as amended. A row with three cells of text whose date [strptime]
    takes and whose trimmed ID is not exactly three ASCII characters ends
    the iteration, when the loop reaches it, with the exception of the
    check of the ID: the parser's [ValueError] for an ASCII ID of another
    length, [UnicodeEncodeError] for an ID with a character outside
    ASCII.  The records of the rows before it have been yielded; none is
    yielded for it or after it. *)
Theorem bad_id_validation_failure (root : Element)
    (pre post : list Element) (row : Element) (vs : list Vendor)
    (t1 t2 t3 : str) (dt : date) :
  findall root rows_path = pre ++ row :: post →
  for_row_in pre = (vs, None) →
  three_cells row t1 t2 t3 →
  strptime_mdY (strip t3) = Return dt →
  ¬ three_ascii (strip t2) →
  parse_spreadsheet (Return root)
    = (vs, Some (id_validation_failure (strip t2))).
Proof.
  intros Hrows Hpre Hcells Hdate Hbad. cbn [parse_spreadsheet].
  rewrite Hrows.
  apply for_row_in_stop; [done|by eapply three_cells_relevant|].
  destruct Hcells as (c1 & c2 & c3 & Htds & H1 & H2 & H3).
  unfold row_vendor. rewrite Htds.
  rewrite (stripped_texts_three _ _ _ _ _ _ H1 H2 H3).
  cbn [mbind result_bind rbind]. rewrite Hdate.
  cbn [mbind result_bind rbind].
  destruct (encode_ascii_not_three _ Hbad) as [Hascii Hnot].
  unfold id_validation_failure, all_ascii.
  destruct (decide (Forall (λ c, 0 ≤ c < 128) (strip t2))) as [Ha|Ha].
  - destruct (Hascii Ha) as [-> Hlen]. cbn [mbind result_bind rbind].
    by rewrite bool_decide_false.
  - by rewrite (Hnot Ha).
Qed.

Lemma bad_id_validation_failure_witness :
  parse_spreadsheet (Return (document [acme_row; short_id_row; beta_row]))
    = ([acme], Some (ValueError PnpIdLength)) ∧
  parse_spreadsheet (Return (document [acme_row; non_ascii_id_row; beta_row]))
    = ([acme], Some UnicodeEncodeError).
Proof.
  split.
  - refine (bad_id_validation_failure
              (document [acme_row; short_id_row; beta_row])
              [acme_row] [beta_row] short_id_row [acme]
              (py "Short Ltd") (py "AB") (py "01/01/2016") (mkdate 2016 1 1)
              _ _ _ _ _).
    + vm_compute; reflexivity.
    + vm_compute; reflexivity.
    + unfold three_cells. do 3 eexists. split; [vm_compute; reflexivity|].
      repeat split; reflexivity.
    + vm_compute; reflexivity.
    + unfold three_ascii. intros [Hlen _]. vm_compute in Hlen. discriminate.
  - refine (bad_id_validation_failure
              (document [acme_row; non_ascii_id_row; beta_row])
              [acme_row] [beta_row] non_ascii_id_row [acme]
              (py "Copy Ltd") [65; 66; 169] (py "01/01/2016")
              (mkdate 2016 1 1) _ _ _ _ _).
    + vm_compute; reflexivity.
    + vm_compute; reflexivity.
    + unfold three_cells. do 3 eexists. split; [vm_compute; reflexivity|].
      repeat split; reflexivity.
    + vm_compute; reflexivity.
    + unfold three_ascii. intros [_ Hall]. revert Hall.
      apply (bool_decide_eq_false_1 _). vm_compute. reflexivity.
Defined.

(** C2, as stated, fails: the ID [AB] is not three ASCII characters, yet
    a row that has it ends the iteration with [AttributeError] when its
    name cell has no text, and with the [ValueError] of [strptime] when
    its date does not parse; neither is the failure of the check of the
    ID. *)
Lemma bad_id_other_exception :
  ¬ three_ascii (py "AB") ∧
  parse_spreadsheet (Return (document [nameless_short_id_row]))
    = ([], Some AttributeError) ∧
  parse_spreadsheet (Return (document [short_id_iso_date_row]))
    = ([], Some (ValueError TimeDataDoesNotMatch)).
Proof.
  split; [|split; vm_compute; reflexivity].
  intros [Hlen _]. vm_compute in Hlen. discriminate.
Qed.

(** The three IDs the specification gives as examples. *)
Example bad_id_examples :
  parse_spreadsheet (Return (document [acme_row; short_id_row]))
    = ([acme], Some (ValueError PnpIdLength)) ∧
  parse_spreadsheet (Return (document [acme_row; long_id_row]))
    = ([acme], Some (ValueError PnpIdLength)) ∧
  parse_spreadsheet (Return (document [acme_row; non_ascii_id_row]))
    = ([acme], Some UnicodeEncodeError).
Proof. repeat split; vm_compute; reflexivity. Qed.

(** C4. A row whose cell count is not three is passed over: the parser
    behaves as on the same rows without it, so nothing is raised and
    nothing is yielded for it.  In particular, when the other rows are two
    valid three-cell rows, exactly their two records are yielded. *)
Theorem non_three_cell_row_skipped (root : Element)
    (pre post : list Element) (row : Element) :
  findall root rows_path = pre ++ row :: post →
  len (row_tds row) ≠ 3 →
  parse_spreadsheet (Return root) = for_row_in (pre ++ post) ∧
  (∀ v1 v2, Forall2 valid_row (pre ++ post) [v1; v2] →
            parse_spreadsheet (Return root) = ([v1; v2], None)).
Proof.
  intros Hrows Hrow.
  assert (parse_spreadsheet (Return root) = for_row_in (pre ++ post)) as Hskip.
  { cbn [parse_spreadsheet]. rewrite Hrows. apply for_row_in_drop.
    by rewrite relevant_len. }
  split; [done|]. intros v1 v2 Hvalid.
  rewrite Hskip. by apply for_row_in_all_valid.
Qed.

Lemma non_three_cell_row_skipped_witness :
  len (row_tds spacer_row) = 2 ∧
  parse_spreadsheet (Return (document [acme_row; spacer_row; beta_row]))
    = ([acme; beta], None).
Proof.
  split; [vm_compute; reflexivity|].
  destruct (non_three_cell_row_skipped
              (document [acme_row; spacer_row; beta_row])
              [acme_row] [beta_row] spacer_row) as [_ Htwo].
  - vm_compute; reflexivity.
  - vm_compute. discriminate.
  - apply Htwo. repeat constructor; valid_example_row.
Defined.

(** C9. A row with exactly three cells one of which has no text ends the
    iteration with an [AttributeError], raised where the absent text is
    stripped: the row is not skipped, no record is yielded for it, and the
    exception is not a [ValueError]. *)
Theorem empty_cell_raises_AttributeError (root : Element)
    (pre post : list Element) (row : Element) (vs : list Vendor)
    (c1 c2 c3 : Element) :
  findall root rows_path = pre ++ row :: post →
  for_row_in pre = (vs, None) →
  row_tds row = [c1; c2; c3] →
  text c1 = None ∨ text c2 = None ∨ text c3 = None →
  parse_spreadsheet (Return root) = (vs, Some AttributeError) ∧
  isinstance_ValueError AttributeError = false.
Proof.
  intros Hrows Hpre Htds Hnone. split; [|done].
  cbn [parse_spreadsheet]. rewrite Hrows.
  apply for_row_in_stop; [done| |].
  - unfold relevant. by rewrite Htds.
  - unfold row_vendor. rewrite Htds. cbn [stripped_texts].
    destruct (text c1); [|done].
    destruct (text c2); [|done].
    destruct (text c3); [|done].
    destruct Hnone as [?|[?|?]]; discriminate.
Qed.

Lemma empty_cell_raises_AttributeError_witness :
  parse_spreadsheet (Return (document [acme_row; empty_id_row; beta_row]))
    = ([acme], Some AttributeError).
Proof.
  refine (proj1 (empty_cell_raises_AttributeError
            (document [acme_row; empty_id_row; beta_row])
            [acme_row] [beta_row] empty_id_row [acme]
            (cell "Nameless") empty_cell (cell "01/01/2016") _ _ _ _)).
  - vm_compute; reflexivity.
  - vm_compute; reflexivity.
  - vm_compute; reflexivity.
  - right; left; reflexivity.
Defined.

(** ** The dates [strptime] takes *)

Lemma one_char_elem p s w rest :
  (w, rest) ∈ one_char p s → ∃ x, w = [x] ∧ s = x :: rest ∧ p x = true.
Proof.
  destruct s as [|x s]; cbn; [by intros ?%elem_of_nil|].
  destruct (p x) eqn:Hp; [|by intros ?%elem_of_nil].
  intros [= -> ->]%list_elem_of_singleton. eauto.
Qed.

(** Every result of the matcher splits its input into a text the
    expression matches and the rest. *)
Lemma rx_match_sound r s w rest :
  (w, rest) ∈ rx_match r s → s = w ++ rest ∧ matches r w.
Proof.
  revert s w rest. induction r as [c|lo hi| |r1 IH1 r2 IH2|r1 IH1 r2 IH2];
    intros s w rest; cbn [rx_match matches].
  - intros (x & -> & -> & Hx)%one_char_elem.
    apply bool_decide_eq_true in Hx as ->. done.
  - intros (x & -> & -> & Hx)%one_char_elem.
    apply bool_decide_eq_true in Hx. eauto.
  - intros (x & -> & -> & Hx)%one_char_elem.
    apply bool_decide_eq_true in Hx. eauto.
  - intros ([w1 s1] & Hin & H1)%list_elem_of_bind.
    apply list_elem_of_bind in Hin as ([w2 s2] & Hin & H2).
    apply list_elem_of_singleton in Hin as [= -> ->].
    apply IH1 in H1 as [-> Hm1]. apply IH2 in H2 as [-> Hm2].
    split; [by rewrite app_assoc|eauto].
  - intros [H|H]%elem_of_app; [apply IH1 in H|apply IH2 in H];
      destruct H; auto.
Qed.

Lemma group_then_sound r sep s w rest :
  (w, rest) ∈ group_then r sep s → s = w ++ sep :: rest ∧ matches r w.
Proof.
  unfold group_then.
  intros ([w1 s1] & Hin & H1)%list_elem_of_bind.
  apply list_elem_of_bind in Hin as ([w2 s2] & Hin & H2).
  apply list_elem_of_singleton in Hin as [= -> ->].
  apply rx_match_sound in H1 as [-> Hm1].
  apply rx_match_sound in H2 as [-> Hm2]. cbn in Hm2. by subst.
Qed.

Lemma format_regex_match_sound s m d y rest :
  format_regex_match s = Some (m, d, y, rest) →
  s = m ++ [47] ++ d ++ [47] ++ y ++ rest ∧
  matches re_m m ∧ matches re_d d ∧ matches re_Y y.
Proof.
  unfold format_regex_match. intros Hhead.
  apply head_Some_elem_of in Hhead.
  apply list_elem_of_bind in Hhead as ([m' s1] & Hin & Hm).
  apply list_elem_of_bind in Hin as ([d' s2] & Hin & Hd).
  apply list_elem_of_bind in Hin as ([y' rest'] & Hin & Hy).
  apply list_elem_of_singleton in Hin as [= -> -> -> ->].
  apply group_then_sound in Hm as [-> Hm].
  apply group_then_sound in Hd as [-> Hd].
  apply rx_match_sound in Hy as [-> Hy]. done.
Qed.

Lemma matches_month w : matches re_m w → month_text w.
Proof.
  unfold month_text. cbn.
  intros [(w1 & w2 & -> & -> & a & -> & Ha)|
          [(w1 & w2 & -> & -> & a & -> & Ha)|(a & -> & Ha)]]; eauto 6.
Qed.

Lemma matches_day w : matches re_d w → day_text w.
Proof.
  unfold day_text, digit. cbn.
  intros [(w1 & w2 & -> & -> & a & -> & Ha)|
          [(w1 & w2 & -> & (a & -> & Ha) & b & -> & Hb)|
           [(w1 & w2 & -> & -> & a & -> & Ha)|
            [(a & -> & Ha)|(w1 & w2 & -> & -> & a & -> & Ha)]]]]; eauto 10.
Qed.

Lemma matches_year w : matches re_Y w → year_text w.
Proof.
  unfold year_text, digit. cbn.
  intros (w1 & w2 & -> & (a & -> & Ha) & w3 & w4 & -> & (b & -> & Hb) &
          w5 & w6 & -> & (c & -> & Hc) & d & -> & Hd).
  eauto 10.
Qed.

(** Outside the shape, [strptime] raises one of its two format errors. *)
Lemma strptime_shape s :
  ¬ M_D_YYYY s →
  strptime_mdY s = Raise (ValueError TimeDataDoesNotMatch) ∨
  strptime_mdY s = Raise (ValueError UnconvertedDataRemains).
Proof.
  intros Hshape. unfold strptime_mdY.
  destruct (format_regex_match s) as [[[[m d] y] rest]|] eqn:Hmatch;
    [|by left].
  case_bool_decide as Hrest; [|by right]. subst rest.
  exfalso. apply Hshape.
  apply format_regex_match_sound in Hmatch as (Hs & Hm & Hd & Hy).
  rewrite app_nil_r in Hs. exists m, d, y.
  split; [done|].
  split; [by apply matches_month|].
  split; [by apply matches_day|by apply matches_year].
Qed.

Lemma M_D_YYYY_slash s : M_D_YYYY s → 47 ∈ s.
Proof. intros (m & d & y & -> & _). set_solver. Qed.

Lemma two_two_four_length s : two_two_four s → length s = 10%nat.
Proof. by intros (m1 & m2 & d1 & d2 & y1 & y2 & y3 & y4 & -> & _). Qed.

(** C3, as amended. A row with three cells of text whose trimmed date is
    not of the shape [M_D_YYYY] ends the iteration with the [ValueError]
    of [strptime], no match or text left over, when the loop reaches it.
    The shape is a month, a slash, a day, a slash and a year: the month
    one of 1 to 9, 01 to 09, 10 to 12; the day one of 1 to 9, 01 to 09, a
    blank and 1 to 9, 1 or 2 and a decimal digit, 30, 31; the year four
    decimal digits; a decimal digit is any decimal digit of Unicode, as
    [\d] takes it, and the other characters are the ASCII ones.  No date
    outside that shape is accepted. *)
Theorem malformed_date_fails_fast (root : Element) (pre post : list Element)
    (row : Element) (vs : list Vendor) (t1 t2 t3 : str) :
  findall root rows_path = pre ++ row :: post →
  for_row_in pre = (vs, None) →
  three_cells row t1 t2 t3 →
  ¬ M_D_YYYY (strip t3) →
  ∃ why, parse_spreadsheet (Return root) = (vs, Some (ValueError why)) ∧
         (why = TimeDataDoesNotMatch ∨ why = UnconvertedDataRemains).
Proof.
  intros Hrows Hpre Hcells Hshape. cbn [parse_spreadsheet]. rewrite Hrows.
  pose proof (three_cells_relevant _ _ _ _ Hcells) as Hrel.
  destruct Hcells as (c1 & c2 & c3 & Htds & H1 & H2 & H3).
  assert (∃ why, row_vendor (row_tds row) = Raise (ValueError why) ∧
                 (why = TimeDataDoesNotMatch ∨ why = UnconvertedDataRemains))
    as (why & Hraise & Hwhy).
  { unfold row_vendor. rewrite Htds.
    rewrite (stripped_texts_three _ _ _ _ _ _ H1 H2 H3).
    cbn [mbind result_bind rbind].
    destruct (strptime_shape _ Hshape) as [-> | ->]; eauto. }
  exists why. split; [|done]. by apply for_row_in_stop.
Qed.

Lemma malformed_date_fails_fast_witness :
  parse_spreadsheet (Return (document [acme_row; iso_date_row; beta_row]))
    = ([acme], Some (ValueError TimeDataDoesNotMatch)).
Proof.
  destruct (malformed_date_fails_fast
              (document [acme_row; iso_date_row; beta_row])
              [acme_row] [beta_row] iso_date_row [acme]
              (py "Iso GmbH") (py "ISO") (py "2016-01-01"))
    as (why & Hrun & _).
  - vm_compute; reflexivity.
  - vm_compute; reflexivity.
  - unfold three_cells. do 3 eexists. split; [vm_compute; reflexivity|].
    repeat split; reflexivity.
  - intros Hin%M_D_YYYY_slash. revert Hin.
    apply (bool_decide_unpack _). vm_compute. exact I.
  - rewrite Hrun. vm_compute in Hrun. congruence.
Defined.

(** C3, as stated, fails: a date with a one-digit month and a one-digit
    day is not of the two-digit, two-digit, four-digit shape, and the
    parser takes it and yields the record. *)
Lemma one_digit_date_accepted :
  ¬ two_two_four (py "1/5/2016") ∧
  parse_spreadsheet (Return (document [one_digit_date_row]))
    = ([mkVendor (py "Acme Corp") (py "ACM") (mkdate 2016 1 5)], None).
Proof.
  split; [|vm_compute; reflexivity].
  intros Hlen%two_two_four_length. vm_compute in Hlen. discriminate.
Qed.

(** ** The generator *)

Lemma for_vendor_in_lines vendors stop rest :
  for_vendor_in vendors stop rest =
    ((vendor_line <$> vendors) ++
       match stop with Some _ => [] | None => rest.1 end,
     match stop with Some e => Some e | None => rest.2 end).
Proof.
  induction vendors as [|v vendors IH]; cbn [for_vendor_in fmap list_fmap app].
  - destruct stop; [done|by destruct rest].
  - by rewrite IH.
Qed.

Lemma vendor_line_text v :
  vendor_line v =
    pyq "    '" ++ pnp_id v ++ pyq "': pnp.Vendor('" ++ name v ++
    pyq "', '" ++ pnp_id v ++ pyq "', datetime.date(" ++
    str_of_int (year (approval_date v)) ++ py ", " ++
    str_of_int (month (approval_date v)) ++ py ", " ++
    str_of_int (day (approval_date v)) ++ py ")),".
Proof.
  unfold vendor_line.
  generalize (str_of_int (year (approval_date v))),
    (str_of_int (month (approval_date v))),
    (str_of_int (day (approval_date v))), (name v), (pnp_id v).
  intros y m d n i.
  set (date := format (py "datetime.date({}, {}, {})") [y; m; d]).
  set (value := format (pyq "pnp.Vendor('{}', '{}', {})") [n; i; date]).
  change (format (pyq "    '{}': {},") [i; value])
    with (pyq "    '" ++ i ++ pyq "': " ++ value ++ py ",").
  subst value.
  change (format (pyq "pnp.Vendor('{}', '{}', {})") [n; i; date])
    with (pyq "pnp.Vendor('" ++ n ++ pyq "', '" ++ i ++ pyq "', " ++
          date ++ py ")").
  subst date.
  change (format (py "datetime.date({}, {}, {})") [y; m; d])
    with (py "datetime.date(" ++ y ++ py ", " ++ m ++ py ", " ++ d ++ py ")").
  rewrite <- !app_assoc. reflexivity.
Qed.

Lemma generate_vendor_module_unfold vendors stop :
  generate_vendor_module (vendors, stop) =
    (preamble ++ [opening] ++ (vendor_line <$> vendors) ++
       match stop with Some _ => [] | None => closing end,
     stop).
Proof.
  unfold generate_vendor_module. cbn [fst snd].
  rewrite for_vendor_in_lines. unfold yield. cbn [fst snd].
  unfold preamble, opening, closing. cbn [app]. by destruct stop.
Qed.

(** C6. The lines of the records come in the order of the records, one
    for every record: the record at position [i] has its line at position
    [6 + i], and the module has nine lines more than there are records,
    whether or not two records share a [pnp_id]. *)
Theorem entry_lines_follow_input (vendors : list Vendor) (i : nat)
    (v : Vendor) :
  vendors !! i = Some v →
  (generate_vendor_module (vendors, None)).1 !! (6 + i)%nat
    = Some (vendor_line v) ∧
  length (generate_vendor_module (vendors, None)).1
    = (length vendors + 9)%nat.
Proof.
  intros Hv.
  rewrite generate_vendor_module_unfold. cbn [fst].
  split.
  - change (6 + i)%nat with (length (preamble ++ [opening]) + i)%nat.
    rewrite (app_assoc preamble). rewrite lookup_app_r by lia.
    rewrite Nat.add_comm, Nat.add_sub.
    rewrite lookup_app_l by (rewrite length_fmap; by eapply lookup_lt_Some).
    by rewrite list_lookup_fmap, Hv.
  - rewrite !length_app, length_fmap. cbn. lia.
Qed.

Lemma entry_lines_follow_input_witness :
  (generate_vendor_module ([beta; acme; beta], None)).1 !! 8%nat
    = Some (vendor_line beta) ∧
  length (generate_vendor_module ([beta; acme; beta], None)).1 = 12%nat.
Proof.
  apply (entry_lines_follow_input [beta; acme; beta] 2 beta). reflexivity.
Defined.

(** Two runs of the generator, one after the other, on the same list of
    records give the same text: a list is not used up by the first. *)
Lemma generate_twice_same_text (items : list Vendor) (h : Heap) :
  ∃ text, generate_twice (ListObject items) h = (Return text, Return text) ∧
          text = join newline (generate_vendor_module (items, None)).1.
Proof.
  eexists. unfold generate_twice, generate_text, drain, join_trace.
  rewrite generate_vendor_module_unfold.
  cbn [fst snd]. done.
Qed.

(** The same two runs on an iterator object differ as soon as it has a
    record to give: the first run takes everything, the second finds the
    iterator exhausted. *)
Lemma generate_twice_iterator (addr : nat) (h : Heap) :
  h !! addr = Some ([acme], None) →
  ∃ text1 text2, generate_twice (IteratorObject addr) h
                   = (Return text1, Return text2) ∧
                 length text1 ≠ length text2.
Proof.
  intros Hh. unfold generate_twice, generate_text, drain, join_trace.
  rewrite Hh, lookup_insert_eq. cbn [from_option id].
  do 2 eexists. split; [reflexivity|]. vm_compute. discriminate.
Qed.

(** ** The driver *)

Lemma generate_vendor_module_stop vendors e :
  vendors.2 = Some e → (generate_vendor_module vendors).2 = Some e.
Proof.
  destruct vendors as [vs stop]. cbn [snd]. intros ->.
  by rewrite generate_vendor_module_unfold.
Qed.

(** C10. When the output file can be opened and the parser ends with an
    exception, whatever it is, [main] ends with that exception and leaves
    the output file empty: the file was truncated before the generator was
    drained, and nothing is written afterwards; what the file held before
    is gone. *)
Theorem failed_run_truncates_output (env : Environment)
    (spreadsheet : str) (fs : FileSystem) (e : Exception) :
  cli_args env = Return spreadsheet →
  writable fs = true →
  (parse_spreadsheet (spreadsheets env spreadsheet)).2 = Some e →
  main env fs = (mkFS (Some []) true, Some e).
Proof.
  intros Hcli Hw He. unfold main, open_w, join_trace. rewrite Hcli, Hw.
  by rewrite (generate_vendor_module_stop _ _ He).
Qed.

Lemma failed_run_truncates_output_witness :
  main (run_on (document [acme_row; short_id_row]))
       (mkFS (Some (py "VENDORS = {}")) true)
    = (mkFS (Some []) true, Some (ValueError PnpIdLength)).
Proof.
  apply (failed_run_truncates_output _ (py "pnp.xls"));
    vm_compute; reflexivity.
Defined.

(** ** Reading the generated text *)

Lemma expect_app lit s : expect lit (lit ++ s) = Some s.
Proof.
  induction lit as [|c lit IH]; [done|]. cbn [expect app].
  by rewrite bool_decide_true.
Qed.

Lemma read_string_body_app w rest :
  Forall (λ c, quoting_hostile c = false) w →
  read_string_body (w ++ 34 :: rest) = Some (w, rest).
Proof.
  induction 1 as [|c w Hc _ IH]; cbn [read_string_body app].
  - by rewrite bool_decide_true.
  - rewrite bool_decide_false, Hc, IH; [done|].
    intros ->. by vm_compute in Hc.
Qed.

Lemma read_string_app w rest :
  Forall (λ c, quoting_hostile c = false) w →
  read_string (34 :: w ++ 34 :: rest) = Some (w, rest).
Proof.
  intros Hw. unfold read_string. cbn [expect].
  rewrite bool_decide_true by done. cbn. by apply read_string_body_app.
Qed.

Lemma read_digits_uint_codes u rest :
  no_digit_ahead rest → read_digits (uint_codes u ++ rest) = (u, rest).
Proof.
  intros Hrest. induction u as [|u IH|u IH|u IH|u IH|u IH|u IH|u IH|u IH|u IH|u IH];
    cbn [uint_codes app read_digits];
    try (change (ascii_digit _) with (Some Decimal.D0) ||
         change (ascii_digit _) with (Some Decimal.D1) ||
         change (ascii_digit _) with (Some Decimal.D2) ||
         change (ascii_digit _) with (Some Decimal.D3) ||
         change (ascii_digit _) with (Some Decimal.D4) ||
         change (ascii_digit _) with (Some Decimal.D5) ||
         change (ascii_digit _) with (Some Decimal.D6) ||
         change (ascii_digit _) with (Some Decimal.D7) ||
         change (ascii_digit _) with (Some Decimal.D8) ||
         change (ascii_digit _) with (Some Decimal.D9));
    try (by rewrite IH).
  destruct rest as [|c r]; [done|]. cbn in *. by rewrite Hrest.
Qed.

Lemma to_uint_no_leading_zero p u : Pos.to_uint p ≠ Decimal.D0 u.
Proof.
  intros Hu.
  pose proof (DecimalPos.Unsigned.to_of (Pos.to_uint p)) as Hnorm.
  rewrite DecimalPos.Unsigned.of_to in Hnorm. cbn [N.to_uint] in Hnorm.
  rewrite Hu, DecimalFacts.unorm_D0 in Hnorm.
  destruct (Decimal.uint_eq_dec u Decimal.Nil) as [->|Hnil].
  - by apply (DecimalPos.Unsigned.to_uint_nonzero p).
  - pose proof (DecimalFacts.nb_digits_unorm u Hnil) as Hlen.
    rewrite <- Hnorm in Hlen. cbn in Hlen. lia.
Qed.

Lemma read_int_str_of_int z rest :
  0 ≤ z → no_digit_ahead rest →
  read_int (str_of_int z ++ rest) = Some (z, rest).
Proof.
  intros Hz Hrest. unfold read_int, str_of_int.
  destruct z as [|p|p]; [| |lia]; cbn [Z.to_int].
  - by rewrite read_digits_uint_codes.
  - rewrite read_digits_uint_codes by done.
    destruct (Pos.to_uint p) as [|u| | | | | | | | |] eqn:Hu;
      [by apply DecimalPos.Unsigned.to_uint_nonnil in Hu
      |by apply to_uint_no_leading_zero in Hu|..];
      rewrite <- Hu; unfold Z.of_uint;
      by rewrite DecimalPos.Unsigned.of_to.
Qed.

Lemma vendor_line_tokens v :
  vendor_line v =
    py "    " ++ 34 :: pnp_id v ++ 34 :: py ": pnp.Vendor(" ++
    34 :: name v ++ 34 :: py ", " ++ 34 :: pnp_id v ++ 34 ::
    py ", datetime.date(" ++
    str_of_int (year (approval_date v)) ++ py ", " ++
    str_of_int (month (approval_date v)) ++ py ", " ++
    str_of_int (day (approval_date v)) ++ py ")),".
Proof. rewrite vendor_line_text. reflexivity. Qed.

Lemma calendar_date_nonneg d :
  calendar_date d → 0 ≤ year d ∧ 0 ≤ month d ∧ 0 ≤ day d.
Proof. intros (? & ? & ?). lia. Qed.

Lemma read_entry_vendor_line v :
  safe_vendor v → read_entry (vendor_line v) = Some (pnp_id v, v).
Proof.
  intros (Hname & Hid & Hdate).
  destruct (calendar_date_nonneg _ Hdate) as (Hy & Hm & Hd).
  rewrite vendor_line_tokens. unfold read_entry.
  rewrite expect_app. cbn [mbind option_bind].
  rewrite read_string_app by done. cbn [mbind option_bind].
  rewrite expect_app. cbn [mbind option_bind].
  rewrite read_string_app by done. cbn [mbind option_bind].
  rewrite expect_app. cbn [mbind option_bind].
  rewrite read_string_app by done. cbn [mbind option_bind].
  rewrite expect_app. cbn [mbind option_bind].
  rewrite read_int_str_of_int by done. cbn [mbind option_bind].
  rewrite expect_app. cbn [mbind option_bind].
  rewrite read_int_str_of_int by done. cbn [mbind option_bind].
  rewrite expect_app. cbn [mbind option_bind].
  rewrite (read_int_str_of_int _ (py ")),")) by done. cbn [mbind option_bind].
  change (expect (py ")),") (py ")),")) with (Some ([] : str)).
  cbn [mbind option_bind]. rewrite option_guard_True by done.
  cbn [mbind option_bind].
  destruct v as [n i [y m d]]. cbn [approval_date year month day] in *.
  rewrite datetime_date_calendar by done. reflexivity.
Qed.

Lemma split_on_line sep l s :
  sep ∉ l → split_on sep (l ++ sep :: s) = l :: split_on sep s.
Proof.
  induction l as [|c l IH]; intros Hl; cbn [split_on app].
  - by rewrite bool_decide_true.
  - rewrite bool_decide_false by set_solver.
    rewrite IH by set_solver. done.
Qed.

Lemma split_on_last sep l : sep ∉ l → split_on sep l = [l].
Proof.
  induction l as [|c l IH]; intros Hl; cbn [split_on]; [done|].
  rewrite bool_decide_false by set_solver.
  rewrite IH by set_solver. done.
Qed.

(** Splitting the joined text at the line ends gives the lines back. *)
Lemma split_on_join sep lines :
  lines ≠ [] → Forall (λ l, sep ∉ l) lines →
  split_on sep (join [sep] lines) = lines.
Proof.
  intros Hne Hall. induction Hall as [|l lines Hl Hall IH]; [done|].
  destruct lines as [|l' lines'].
  - cbn [join]. by apply split_on_last.
  - change (join [sep] (l :: l' :: lines'))
      with (l ++ sep :: join [sep] (l' :: lines')).
    rewrite split_on_line by done. by rewrite IH.
Qed.


Lemma uint_codes_digits u : Forall (λ c, 48 ≤ c ≤ 57) (uint_codes u).
Proof. induction u; cbn [uint_codes]; constructor; (lia || done). Qed.

Lemma str_of_int_no_newline z : 0 ≤ z → 10 ∉ str_of_int z.
Proof.
  intros Hz Hin. unfold str_of_int in Hin.
  destruct z as [|p|p]; [| |lia]; cbn [Z.to_int] in Hin;
    eapply Forall_forall in Hin; [|apply uint_codes_digits| |apply uint_codes_digits];
    cbn in Hin; lia.
Qed.

Lemma not_hostile_no_newline w :
  Forall (λ c, quoting_hostile c = false) w → 10 ∉ w.
Proof.
  intros Hw Hin. eapply Forall_forall in Hw; [|done]. by vm_compute in Hw.
Qed.

Lemma vendor_line_no_newline v : safe_vendor v → 10 ∉ vendor_line v.
Proof.
  intros (Hname & Hid & Hdate).
  destruct (calendar_date_nonneg _ Hdate) as (Hy & Hm & Hd).
  pose proof (not_hostile_no_newline _ Hname).
  pose proof (not_hostile_no_newline _ Hid).
  pose proof (str_of_int_no_newline _ Hy).
  pose proof (str_of_int_no_newline _ Hm).
  pose proof (str_of_int_no_newline _ Hd).
  rewrite vendor_line_tokens.
  repeat (rewrite not_elem_of_app || rewrite not_elem_of_cons).
  repeat split; try done; by_decide.
Qed.

(** ** What the interpreter reads back *)

Lemma load_lines_app st l1 l2 :
  load_lines st (l1 ++ l2) = load_lines st l1 ≫= λ st', load_lines st' l2.
Proof.
  revert st. induction l1 as [|l l1 IH]; intros st; [done|].
  cbn [load_lines app]. destruct (load_line st l); cbn; [apply IH|done].
Qed.

Lemma load_line_vendor m v :
  safe_vendor v →
  load_line (InMapping m) (vendor_line v)
    = Some (InMapping (<[pnp_id v := v]> m)).
Proof.
  intros Hv. cbn [load_line].
  rewrite bool_decide_false by (rewrite vendor_line_tokens; discriminate).
  by rewrite read_entry_vendor_line.
Qed.

Lemma load_lines_vendors m vendors :
  Forall safe_vendor vendors →
  load_lines (InMapping m) (vendor_line <$> vendors)
    = Some (InMapping (foldl (λ m v, <[pnp_id v := v]> m) m vendors)).
Proof.
  intros Hall. revert m. induction Hall as [|v vendors Hv _ IH]; intros m;
    [done|].
  cbn [fmap list_fmap load_lines foldl]. rewrite load_line_vendor by done.
  cbn. apply IH.
Qed.

Lemma vendors_mapping_lookup vendors v :
  NoDup (pnp_id <$> vendors) → v ∈ vendors →
  vendors_mapping vendors !! pnp_id v = Some v.
Proof.
  unfold vendors_mapping. induction vendors as [|x vendors IH] using rev_ind;
    [by intros _ ?%elem_of_nil|].
  rewrite fmap_app, foldl_app. cbn [fmap list_fmap foldl].
  intros [Hnd [Hdisj _]]%NoDup_app Hin.
  apply elem_of_app in Hin as [Hin|Hin%list_elem_of_singleton].
  - rewrite lookup_insert_ne; [by apply IH|].
    intros Heq. apply (Hdisj (pnp_id v)).
    + by apply list_elem_of_fmap_2.
    + rewrite <- Heq. by apply list_elem_of_singleton.
  - subst. by rewrite lookup_insert_eq.
Qed.

(** C7. For records whose names and IDs hold no quote, backslash, line
    end or NUL and whose dates exist, the generated text loads, and
    [VENDORS] is the mapping that takes each [pnp_id] to its record, name,
    ID and date as they were; a later record replaces an earlier one with
    the same [pnp_id], so with distinct IDs every record is found under
    its own. *)
Theorem generated_module_loads (vendors : list Vendor) :
  Forall safe_vendor vendors →
  ∃ text, join_trace newline (generate_vendor_module (vendors, None))
            = Return text ∧
          load_module text = Some (vendors_mapping vendors) ∧
          (NoDup (pnp_id <$> vendors) →
           ∀ v, v ∈ vendors → vendors_mapping vendors !! pnp_id v = Some v).
Proof.
  intros Hsafe. unfold join_trace.
  rewrite generate_vendor_module_unfold.
  cbn [fst snd]. eexists. split; [done|].
  split; [|intros Hnd v Hv; by apply vendors_mapping_lookup].
  unfold load_module, newline. rewrite split_on_join.
  - rewrite load_lines_app.
    change (load_lines BeforeMapping preamble) with (Some BeforeMapping).
    cbn [mbind option_bind]. rewrite load_lines_app.
    change (load_lines BeforeMapping [opening])
      with (Some (InMapping (∅ : gmap str Vendor))).
    cbn [mbind option_bind]. rewrite load_lines_app.
    rewrite load_lines_vendors by done. cbn [mbind option_bind].
    reflexivity.
  - by destruct preamble eqn:Hp.
  - rewrite !Forall_app. split; [|split; [|split]].
    + apply (bool_decide_unpack _). by vm_compute.
    + apply (bool_decide_unpack _). by vm_compute.
    + apply Forall_fmap. eapply Forall_impl; [done|].
      intros v Hv. by apply vendor_line_no_newline.
    + apply (bool_decide_unpack _). by vm_compute.
Qed.

Lemma generated_module_loads_witness :
  Forall safe_vendor [acme; beta] ∧
  ∃ text m,
    join_trace newline (generate_vendor_module ([acme; beta], None))
      = Return text ∧
    load_module text = Some m ∧
    m !! py "ACM" = Some acme ∧ m !! py "BET" = Some beta.
Proof.
  assert (Forall safe_vendor [acme; beta]) as Hsafe.
  { repeat constructor; by_decide. }
  split; [exact Hsafe|].
  destruct (generated_module_loads [acme; beta] Hsafe)
    as (text & Htext & Hload & Hkeys).
  exists text, (vendors_mapping [acme; beta]).
  split; [exact Htext|]. split; [exact Hload|].
  assert (NoDup (pnp_id <$> [acme; beta])) as Hnd by by_decide.
  split.
  - apply (Hkeys Hnd acme). repeat constructor.
  - apply (Hkeys Hnd beta). repeat constructor.
Defined.

(** ** The integers the generator writes *)

Lemma uint_codes_value_acc u acc :
  foldl (λ acc c, 10 * acc + (c - 48)) (Z.pos acc) (uint_codes u)
    = Z.pos (Pos.of_uint_acc u acc).
Proof.
  revert acc. induction u; intros acc;
    cbn [uint_codes foldl Pos.of_uint_acc]; [done|..];
    rewrite <- IHu; f_equal; lia.
Qed.

Lemma uint_codes_value u :
  foldl (λ acc c, 10 * acc + (c - 48)) 0 (uint_codes u)
    = Z.of_N (Pos.of_uint u).
Proof.
  induction u; cbn [uint_codes foldl Pos.of_uint]; [done|exact IHu|..];
    match goal with
    | |- context [Pos.of_uint_acc ?u ?k] => exact (uint_codes_value_acc u k)
    end.
Qed.

Lemma uint_codes_nil u : uint_codes u = [] → u = Decimal.Nil.
Proof. by destruct u. Qed.

Lemma uint_codes_head_zero u :
  head (uint_codes u) = Some 48 → ∃ u', u = Decimal.D0 u'.
Proof. destruct u; cbn; intros [=]. eauto. Qed.

Lemma to_uint_decimal_numeral p :
  decimal_numeral (uint_codes (Pos.to_uint p)) (Z.pos p).
Proof.
  split; [|split; [|split]].
  - intros Hnil%uint_codes_nil.
    by apply DecimalPos.Unsigned.to_uint_nonnil in Hnil.
  - apply uint_codes_digits.
  - intros [u' Hu]%uint_codes_head_zero.
    by apply to_uint_no_leading_zero in Hu.
  - by rewrite uint_codes_value, DecimalPos.Unsigned.of_to.
Qed.

(** [str] of an integer is the text that writes it. *)
Lemma str_of_int_integer_text z : integer_text (str_of_int z) z.
Proof.
  unfold str_of_int. destruct z as [|p|p]; cbn [Z.to_int].
  - left. split; [done|]. repeat split; try done.
    repeat constructor; lia.
  - left. split; [lia|]. apply to_uint_decimal_numeral.
  - right. split; [lia|]. eexists. split; [done|].
    apply to_uint_decimal_numeral.
Qed.

(** C5. The lines of a generated module are the five fixed lines of the
    preamble (the generated-file marker, the pylint and yapf markers, the
    two imports), the line that opens the mapping, one line per record,
    and, when the records end normally, the line that closes the mapping,
    the marker that turns yapf on again and an empty line.  The line of a
    record is its quoted [pnp_id], a colon, and a call of [pnp.Vendor] on
    the quoted name, the quoted ID and a call of [datetime.date] on three
    integers written in decimal, the year, the month and the day. *)
Theorem generate_vendor_module_lines (vendors : list Vendor)
    (stop : option Exception) :
  generate_vendor_module (vendors, stop) =
    (preamble ++ [opening] ++ (vendor_line <$> vendors) ++
       match stop with Some _ => [] | None => closing end,
     stop) ∧
  Forall (λ v, ∃ y m d,
    integer_text y (year (approval_date v)) ∧
    integer_text m (month (approval_date v)) ∧
    integer_text d (day (approval_date v)) ∧
    vendor_line v =
      pyq "    '" ++ pnp_id v ++ pyq "': pnp.Vendor('" ++ name v ++
      pyq "', '" ++ pnp_id v ++ pyq "', datetime.date(" ++
      y ++ py ", " ++ m ++ py ", " ++ d ++ py ")),") vendors.
Proof.
  split; [apply generate_vendor_module_unfold|].
  apply Forall_forall. intros v _.
  exists (str_of_int (year (approval_date v))),
    (str_of_int (month (approval_date v))),
    (str_of_int (day (approval_date v))).
  split; [apply str_of_int_integer_text|].
  split; [apply str_of_int_integer_text|].
  split; [apply str_of_int_integer_text|].
  apply vendor_line_text.
Qed.

(** The module of the two records of the specification. *)
Example generate_vendor_module_acme_beta :
  generate_vendor_module ([acme; beta], None) =
    ([py "# THIS FILE WAS AUTOGENERATED BY make_vendor_list.py!";
      py "# pylint: disable=line-too-long,missing-docstring,too-many-lines";
      py "# yapf: disable";
      py "import datetime";
      py "from bios_pnp import pnp";
      py "VENDORS = {";
      pyq "    'ACM': pnp.Vendor('Acme Corp', 'ACM', datetime.date(2016, 1, 15)),";
      pyq "    'BET': pnp.Vendor('Beta Inc', 'BET', datetime.date(2020, 6, 1)),";
      py "}";
      py "# yapf: enable";
      py ""], None).
Proof. vm_compute. reflexivity. Qed.

(** * Further properties *)

(** ** Decimal digits of Unicode *)

Lemma decimal_value_range c v : Py_UNICODE_TODECIMAL c = Some v → 0 ≤ v ≤ 9.
Proof.
  unfold Py_UNICODE_TODECIMAL.
  destruct (List.find _ _) as [z|] eqn:Hfind; [|done].
  apply find_some in Hfind as [_ Hz]. apply bool_decide_eq_true in Hz.
  intros [= <-]. lia.
Qed.

Lemma space_not_digit c :
  Py_UNICODE_ISSPACE c = true → Py_UNICODE_TODECIMAL c = None.
Proof.
  unfold Py_UNICODE_ISSPACE. intros Hc%bool_decide_eq_true.
  repeat (apply elem_of_cons in Hc as [->|Hc]; [reflexivity|]).
  by apply elem_of_nil in Hc.
Qed.

Lemma digit_not_space c : digit c → Py_UNICODE_ISSPACE c = false.
Proof.
  intros [v Hv]. destruct (Py_UNICODE_ISSPACE c) eqn:Hc; [|done].
  apply space_not_digit in Hc. congruence.
Qed.

Lemma digit_not_slash c : digit c → c ≠ 47.
Proof. intros [v Hv] ->. discriminate. Qed.

Lemma strip_two a b :
  Py_UNICODE_ISSPACE a = false → Py_UNICODE_ISSPACE b = false →
  strip [a; b] = [a; b].
Proof.
  intros Ha Hb. unfold strip, rstrip. cbn [lstrip]. rewrite Ha.
  change (reverse [a; b]) with [b; a]. cbn [lstrip]. by rewrite Hb.
Qed.

(** ** [int] on the groups of the pattern *)

Lemma int_month w : month_text w → ∃ n, int w = Return n ∧ 1 ≤ n ≤ 12.
Proof.
  intros [(a & -> & Ha)|[(a & -> & Ha)|(a & -> & Ha)]];
    split_digit a; try lia; eexists; (split; [reflexivity|lia]).
Qed.

Lemma int_day w : day_text w → ∃ n, int w = Return n ∧ 1 ≤ n ≤ 31.
Proof.
  intros [(a & -> & Ha)|[(a & -> & Ha)|[(a & -> & Ha)|
          [(a & b & -> & Ha & Hb)|(a & -> & Ha)]]]].
  1-3, 5: split_digit a; try lia; eexists; (split; [reflexivity|lia]).
  pose proof (digit_not_space _ Hb) as Hsp. destruct Hb as [v Hv].
  pose proof (decimal_value_range _ _ Hv).
  assert (a = 49 ∨ a = 50) as [-> | ->] by lia.
  - exists (10 + v). split; [|lia]. unfold int.
    rewrite strip_two by done. cbn. rewrite Hv. cbn. f_equal.
  - exists (20 + v). split; [|lia]. unfold int.
    rewrite strip_two by done. cbn. rewrite Hv. cbn. f_equal.
Qed.

Lemma int_year w : year_text w → ∃ n, int w = Return n ∧ 0 ≤ n ≤ 9999.
Proof.
  intros (a & b & c & d & -> & Ha & Hb & Hc & Hd).
  pose proof (digit_not_space _ Ha). pose proof (digit_not_space _ Hd).
  destruct Ha as [va Ha], Hb as [vb Hb], Hc as [vc Hc], Hd as [vd Hd].
  pose proof (decimal_value_range _ _ Ha).
  pose proof (decimal_value_range _ _ Hb).
  pose proof (decimal_value_range _ _ Hc).
  pose proof (decimal_value_range _ _ Hd).
  exists (1000 * va + 100 * vb + 10 * vc + vd). split; [|lia].
  unfold int. rewrite strip_four by done.
  cbn. rewrite Ha. cbn. rewrite Hb. cbn. rewrite Hc. cbn. rewrite Hd.
  f_equal. lia.
Qed.

Lemma datetime_date_returns y m d dt :
  datetime_date y m d = Return dt → dt = mkdate y m d ∧ calendar_date dt.
Proof.
  unfold datetime_date.
  case_bool_decide as Hy; [|done]. case_bool_decide as Hm; [|done].
  case_bool_decide as Hd; [|done]. cbn. intros [= <-]. split; [done|].
  rewrite days_in_month_spec in Hd by done. done.
Qed.

Lemma datetime_date_out_of_range y m d :
  ¬ calendar_date (mkdate y m d) →
  datetime_date y m d = Raise (ValueError DateOutOfRange).
Proof.
  intros Hcal. destruct (datetime_date y m d) as [dt|e] eqn:Hdt.
  - apply datetime_date_returns in Hdt as [-> Hdt]. done.
  - revert Hdt. unfold datetime_date.
    repeat (case_match; [by intros [= <-]|]). done.
Qed.

(** The exceptions of [strptime]: the two format errors and the date out
    of range, never the failure of [int] on a group. *)
Lemma strptime_raises_kinds s e :
  strptime_mdY s = Raise e →
  e = ValueError TimeDataDoesNotMatch ∨
  e = ValueError UnconvertedDataRemains ∨
  e = ValueError DateOutOfRange.
Proof.
  unfold strptime_mdY.
  destruct (format_regex_match s) as [[[[m d] y] rest]|] eqn:Hmatch;
    [|intros [= <-]; auto].
  case_match; [intros [= <-]; auto|].
  apply format_regex_match_sound in Hmatch as (_ & Hm & Hd & Hy).
  destruct (int_year y) as (vy & -> & _); [by apply matches_year|].
  destruct (int_month m) as (vm & -> & _); [by apply matches_month|].
  destruct (int_day d) as (vd & -> & _); [by apply matches_day|].
  cbn. unfold datetime_date.
  repeat (case_match; [intros [= <-]; auto|]). done.
Qed.

(** What [strptime] returns is a date of the calendar, read from a text
    of the shape of the format. *)
Lemma strptime_returns s dt :
  strptime_mdY s = Return dt → M_D_YYYY s ∧ calendar_date dt.
Proof.
  unfold strptime_mdY.
  destruct (format_regex_match s) as [[[[m d] y] rest]|] eqn:Hmatch;
    [|done].
  case_bool_decide as Hrest; [|done]. subst rest.
  apply format_regex_match_sound in Hmatch as (Hs & Hm & Hd & Hy).
  rewrite app_nil_r in Hs.
  destruct (int y); [|done]. destruct (int m); [|done].
  destruct (int d); [|done]. cbn.
  intros [_ ?]%datetime_date_returns. split; [|done].
  exists m, d, y. split; [done|].
  split; [by apply matches_month|].
  split; [by apply matches_day|by apply matches_year].
Qed.

(** ** Texts of the shape are matched whole *)

Lemma month_group_complete m rest :
  month_text m → group_then re_m slash (m ++ 47 :: rest) = [(m, rest)].
Proof.
  intros [(a & -> & Ha)|[(a & -> & Ha)|(a & -> & Ha)]];
    split_digit a; try lia; reflexivity.
Qed.

Lemma day_group_complete d rest :
  day_text d → group_then re_d slash (d ++ 47 :: rest) = [(d, rest)].
Proof.
  intros [(a & -> & Ha)|[(a & -> & Ha)|[(a & -> & Ha)|
          [(a & b & -> & Ha & Hb)|(a & -> & Ha)]]]].
  1-3, 5: split_digit a; try lia; reflexivity.
  pose proof (digit_not_slash _ Hb) as Hb47.
  assert (a = 49 ∨ a = 50) as [-> | ->] by lia;
    unfold group_then, re_d, slash;
    repeat (cbn; first [rewrite bool_decide_true by (first [lia|done])
                       |rewrite bool_decide_false by (first [lia|done])]);
    reflexivity.
Qed.

Lemma year_complete y rest :
  year_text y → rx_match re_Y (y ++ rest) = [(y, rest)].
Proof.
  intros (a & b & c & d & -> & Ha & Hb & Hc & Hd). unfold re_Y.
  do 4 (cbn; rewrite bool_decide_true by done). reflexivity.
Qed.

Lemma strptime_parts m d y vm vd vy :
  month_text m → day_text d → year_text y →
  int m = Return vm → int d = Return vd → int y = Return vy →
  strptime_mdY (m ++ [47] ++ d ++ [47] ++ y) = datetime_date vy vm vd.
Proof.
  intros Hm Hd Hy Hvm Hvd Hvy. unfold strptime_mdY, format_regex_match.
  cbn [app]. rewrite (month_group_complete _ _ Hm). cbn [mbind list_bind].
  rewrite (day_group_complete _ _ Hd). cbn [mbind list_bind].
  rewrite <- (app_nil_r y) at 1. rewrite (year_complete _ _ Hy).
  cbn [mbind list_bind app head]. rewrite bool_decide_true by done.
  cbn [negb]. by rewrite Hvy, Hvm, Hvd.
Qed.

Ltac shape_case :=
  first
    [ solve [eexists; split; [reflexivity|lia]]
    | solve [do 2 eexists; split;
             [reflexivity|split; [lia|eexists; reflexivity]]] ].

Ltac pick_shape := first [ left; shape_case | right; pick_shape | shape_case ].

Lemma month_of_digits w n :
  one_or_two_digits w n → 1 ≤ n ≤ 12 → month_text w ∧ int w = Return n.
Proof.
  intros [(a & -> & Ha)|(a & b & va & vb & -> & Ha & Hb & ->)] Hn.
  - apply ascii_digit_value_range in Ha as [Ha ->].
    split_digit a; try lia; (split; [unfold month_text; pick_shape|reflexivity]).
  - apply ascii_digit_value_range in Ha as [Ha ->].
    apply ascii_digit_value_range in Hb as [Hb ->].
    split_digit a; try lia; split_digit b; try lia;
      (split; [unfold month_text; pick_shape|reflexivity]).
Qed.

Lemma day_of_digits w n :
  one_or_two_digits w n → 1 ≤ n ≤ 31 → day_text w ∧ int w = Return n.
Proof.
  intros [(a & -> & Ha)|(a & b & va & vb & -> & Ha & Hb & ->)] Hn.
  - apply ascii_digit_value_range in Ha as [Ha ->].
    split_digit a; try lia; (split; [unfold day_text; pick_shape|reflexivity]).
  - apply ascii_digit_value_range in Ha as [Ha ->].
    apply ascii_digit_value_range in Hb as [Hb ->].
    split_digit a; try lia; split_digit b; try lia;
      (split; [unfold day_text, digit; pick_shape|reflexivity]).
Qed.

Lemma year_of_digits w n :
  four_digits w n → year_text w ∧ int w = Return n.
Proof.
  intros (a & b & c & d & va & vb & vc & vd & -> & Ha & Hb & Hc & Hd & ->).
  split.
  - exists a, b, c, d. unfold digit.
    rewrite (ascii_digit_decimal _ _ Ha), (ascii_digit_decimal _ _ Hb),
      (ascii_digit_decimal _ _ Hc), (ascii_digit_decimal _ _ Hd). eauto 10.
  - by apply year_group.
Qed.

(** A text of one or two digits, a slash, one or two digits, a slash and
    four digits, with a month from 1 to 12 and a day from 1 to 31, goes to
    the constructor of [datetime.date] with the three numbers. *)
Lemma strptime_digits m d y vm vd vy :
  one_or_two_digits m vm → 1 ≤ vm ≤ 12 →
  one_or_two_digits d vd → 1 ≤ vd ≤ 31 →
  four_digits y vy →
  strptime_mdY (m ++ [47] ++ d ++ [47] ++ y) = datetime_date vy vm vd.
Proof.
  intros Hm Hvm Hd Hvd Hy.
  destruct (month_of_digits _ _ Hm Hvm) as [Hmt Hmi].
  destruct (day_of_digits _ _ Hd Hvd) as [Hdt Hdi].
  destruct (year_of_digits _ _ Hy) as [Hyt Hyi].
  by apply strptime_parts.
Qed.

(** ** What the body of the loop returns and raises *)

Lemma strip_trimmed s : trimmed (strip s).
Proof. destruct (strip_spec s) as (l & r & _ & _ & _ & Hh & Hl). by split. Qed.

Lemma stripped_texts_raises tds e :
  stripped_texts tds = Raise e → e = AttributeError.
Proof.
  induction tds as [|c tds IH]; cbn [stripped_texts]; [done|].
  destruct (text c); [|by intros [= <-]].
  destruct (stripped_texts tds); cbn; [done|]. intros [= <-]. by apply IH.
Qed.

Lemma stripped_texts_three_inv tds n i d :
  stripped_texts tds = Return [n; i; d] →
  ∃ c1 c2 c3 t1 t2 t3, tds = [c1; c2; c3] ∧
    text c1 = Some t1 ∧ text c2 = Some t2 ∧ text c3 = Some t3 ∧
    n = strip t1 ∧ i = strip t2 ∧ d = strip t3.
Proof.
  destruct tds as [|c1 [|c2 [|c3 [|c4 tds]]]]; cbn [stripped_texts].
  - done.
  - destruct (text c1); cbn; [|done]. done.
  - destruct (text c1); [|done]. destruct (text c2); cbn; [|done]. done.
  - destruct (text c1) as [t1|] eqn:H1; [|done].
    destruct (text c2) as [t2|] eqn:H2; [|done].
    destruct (text c3) as [t3|] eqn:H3; [|done]. cbn.
    intros [= <- <- <-]. by exists c1, c2, c3, t1, t2, t3.
  - destruct (text c1); [|done]. destruct (text c2); [|done].
    destruct (text c3); [|done]. destruct (text c4); [|done].
    destruct (stripped_texts tds); cbn; done.
Qed.

Lemma encode_ascii_returns s enc :
  encode_ascii s = Return enc → enc = s ∧ Forall (λ c, 0 ≤ c < 128) s.
Proof.
  unfold encode_ascii. destruct (forallb _ s) eqn:Hall; [|done].
  intros [= <-]. split; [done|].
  apply Is_true_true, forallb_True in Hall.
  eapply Forall_impl; [done|]. intros c Hc. cbn in Hc.
  by apply bool_decide_unpack in Hc.
Qed.

Lemma row_vendor_returns row v :
  row_vendor (row_tds row) = Return v →
  row_record row v ∧ three_ascii (pnp_id v).
Proof.
  unfold row_vendor.
  destruct (stripped_texts (row_tds row)) as [[|n [|i [|d [|x ts]]]]|]
    eqn:Htexts; cbn [mbind result_bind rbind]; try done.
  apply stripped_texts_three_inv in Htexts
    as (c1 & c2 & c3 & t1 & t2 & t3 & Htds & H1 & H2 & H3 & -> & -> & ->).
  destruct (strptime_mdY (strip t3)) as [dt|] eqn:Hdate; cbn [mbind result_bind rbind]; [|done].
  destruct (encode_ascii (strip t2)) as [enc|] eqn:Henc; cbn [mbind result_bind rbind]; [|done].
  apply encode_ascii_returns in Henc as [-> Hascii].
  case_bool_decide as Hlen; [|done]. cbn [negb]. intros [= <-].
  cbn [name pnp_id approval_date]. split.
  - exists t1, t2, t3. split; [by exists c1, c2, c3|done].
  - split; [|done]. unfold len in Hlen. lia.
Qed.

Lemma row_vendor_raises row e :
  relevant row → row_vendor (row_tds row) = Raise e →
  e = AttributeError ∨ e = ValueError TimeDataDoesNotMatch ∨
  e = ValueError UnconvertedDataRemains ∨ e = ValueError DateOutOfRange ∨
  e = UnicodeEncodeError ∨ e = ValueError PnpIdLength.
Proof.
  unfold relevant, row_vendor. intros Hlen.
  destruct (stripped_texts (row_tds row)) as [ts|e'] eqn:Htexts;
    cbn [mbind result_bind rbind].
  - destruct ts as [|n [|i [|d [|x ts]]]].
    1-3, 5: exfalso; revert Htexts Hlen;
      destruct (row_tds row) as [|c1 [|c2 [|c3 [|c4 tds]]]];
      cbn [stripped_texts length]; try done;
      repeat (case_match; try done); cbn; try done;
      destruct (stripped_texts tds); done.
    destruct (strptime_mdY d) as [dt|e'] eqn:Hdate; cbn [mbind result_bind rbind].
    + unfold encode_ascii. case_match; cbn [mbind result_bind rbind].
      * case_match; [intros [= <-]; auto 10|done].
      * intros [= <-]. auto 10.
    + intros [= <-]. apply strptime_raises_kinds in Hdate. tauto.
  - intros [= <-]. apply stripped_texts_raises in Htexts. auto.
Qed.

(** ** What the loop yields and where it stops *)

Lemma for_row_in_records rows vs stop :
  for_row_in rows = (vs, stop) →
  Forall2 (λ row v, row_vendor (row_tds row) = Return v)
          (take (length vs) (filter relevant rows)) vs ∧
  (stop = None → length vs = length (filter relevant rows)).
Proof.
  revert vs. induction rows as [|row rows IH]; intros vs.
  - intros [= <- <-]. split; [constructor|done].
  - destruct (decide (relevant row)) as [Hrel|Hrel].
    + rewrite filter_cons_True by done.
      destruct (row_vendor (row_tds row)) as [v|e] eqn:Hv.
      * rewrite (for_row_in_yield _ _ _ Hrel Hv).
        destruct (for_row_in rows) as [vs' stop'] eqn:Hrows.
        unfold yield. cbn [fst snd]. intros [= <- <-].
        destruct (IH vs' eq_refl) as [Hall Hlen]. split.
        -- cbn [length take]. by constructor.
        -- intros Hstop. cbn [length]. by rewrite (Hlen Hstop).
      * rewrite (for_row_in_raise _ _ _ Hrel Hv). intros [= <- <-].
        split; [constructor|done].
    + rewrite filter_cons_False by done. rewrite for_row_in_skip by done.
      apply IH.
Qed.

Lemma for_row_in_first_failure rows vs e :
  for_row_in rows = (vs, Some e) →
  ∃ pre row post, rows = pre ++ row :: post ∧ for_row_in pre = (vs, None) ∧
                  relevant row ∧ row_vendor (row_tds row) = Raise e.
Proof.
  revert vs. induction rows as [|row rows IH]; intros vs; [done|].
  destruct (decide (relevant row)) as [Hrel|Hrel].
  - destruct (row_vendor (row_tds row)) as [v|e'] eqn:Hv.
    + rewrite (for_row_in_yield _ _ _ Hrel Hv).
      destruct (for_row_in rows) as [vs' stop'] eqn:Hrows.
      unfold yield. cbn [fst snd]. intros [= <- ->].
      destruct (IH vs' eq_refl) as (pre & r & post & -> & Hpre & Hr & He).
      exists (row :: pre), r, post. split; [done|]. split; [|done].
      cbn [app]. rewrite (for_row_in_yield _ _ _ Hrel Hv), Hpre. done.
    + rewrite (for_row_in_raise _ _ _ Hrel Hv). intros [= <- <-].
      by exists [], row, rows.
  - rewrite for_row_in_skip by done. intros Hrows.
    destruct (IH vs Hrows) as (pre & r & post & -> & Hpre & Hr & He).
    exists (row :: pre), r, post. split; [done|]. split; [|done].
    cbn [app]. by rewrite for_row_in_skip.
Qed.

(** ** Further properties of the parser *)

Lemma row_vendor_well_formed row v :
  row_vendor (row_tds row) = Return v → well_formed_record v.
Proof.
  intros [(t1 & t2 & t3 & _ & Hn & Hi & Hd) Hascii]%row_vendor_returns.
  split; [done|]. split; [by apply strptime_returns in Hd as [_ ?]|].
  rewrite Hn, Hi. split; apply strip_trimmed.
Qed.

Lemma for_row_in_well_formed rows vs stop :
  for_row_in rows = (vs, stop) → Forall well_formed_record vs.
Proof.
  intros [Hrecords _]%for_row_in_records. revert Hrecords.
  generalize (take (length vs) (filter relevant rows)).
  intros rows' Hrecords. induction Hrecords as [|row v rows' vs Hv _ IH];
    constructor; [by eapply row_vendor_well_formed|done].
Qed.

(** X1. Every record the parser yields, on any input and whether or not
    the iteration ends with an exception, has a [pnp_id] of exactly three
    ASCII characters, a date that exists in the calendar, and a name and
    an ID with no blank at either end. *)
Theorem parsed_records_well_formed (tree : result Element) :
  Forall well_formed_record (parse_spreadsheet tree).1.
Proof.
  destruct tree as [root|e]; cbn [parse_spreadsheet fst]; [|constructor].
  destruct (for_row_in (findall root rows_path)) as [vs stop] eqn:Hrun.
  by eapply for_row_in_well_formed.
Qed.

(** X2. Whatever the tree, the records the parser yields are those of the
    first rows with three cells, one record per row and in the order of
    the rows: name and ID are the trimmed texts of the first two cells and
    the date is what [strptime] reads from the trimmed third.  When the
    iteration ends without exception every row with three cells has its
    record. *)
Theorem records_follow_three_cell_rows (root : Element) (vs : list Vendor)
    (stop : option Exception) :
  parse_spreadsheet (Return root) = (vs, stop) →
  Forall2 row_record
    (take (length vs) (filter relevant (findall root rows_path))) vs ∧
  (stop = None →
   length vs = length (filter relevant (findall root rows_path))).
Proof.
  cbn [parse_spreadsheet]. intros [Hrecords Hlen]%for_row_in_records.
  split; [|done]. eapply Forall2_impl; [done|].
  intros row v Hv. by apply row_vendor_returns in Hv as [? _].
Qed.

Lemma records_follow_three_cell_rows_witness :
  Forall2 row_record [acme_row; one_digit_date_row] [acme; acme_1_5].
Proof.
  apply (records_follow_three_cell_rows (document mixed_rows)
           [acme; acme_1_5] (Some (ValueError PnpIdLength))).
  vm_compute. reflexivity.
Defined.

(** X3. Once a row raises, the rows after it play no part: the document
    splits at a row with three cells such that the same records and the
    same exception come out whatever rows follow it. *)
Theorem rows_after_failure_ignored (root : Element) (vs : list Vendor)
    (e : Exception) :
  parse_spreadsheet (Return root) = (vs, Some e) →
  ∃ pre row post,
    findall root rows_path = pre ++ row :: post ∧ relevant row ∧
    ∀ post', for_row_in (pre ++ row :: post') = (vs, Some e).
Proof.
  cbn [parse_spreadsheet].
  intros (pre & row & post & Hrows & Hpre & Hrel & He)%for_row_in_first_failure.
  exists pre, row, post. split; [done|]. split; [done|].
  intros post'. by apply for_row_in_stop.
Qed.

Lemma rows_after_failure_ignored_witness :
  ∃ pre row post,
    findall (document mixed_rows) rows_path = pre ++ row :: post ∧
    relevant row ∧
    ∀ post', for_row_in (pre ++ row :: post')
             = ([acme; acme_1_5], Some (ValueError PnpIdLength)).
Proof.
  apply (rows_after_failure_ignored (document mixed_rows)).
  vm_compute. reflexivity.
Defined.

(** X4. On a tree that was read, the parser ends with no exception other
    than the [AttributeError] of a cell without text, the three
    [ValueError]s of [strptime] (text that does not match, text left over,
    date out of range), the [UnicodeEncodeError] of [encode] and its own
    [ValueError] for the length of the ID. *)
Theorem parser_exception_kinds (root : Element) (vs : list Vendor)
    (e : Exception) :
  parse_spreadsheet (Return root) = (vs, Some e) →
  e = AttributeError ∨ e = ValueError TimeDataDoesNotMatch ∨
  e = ValueError UnconvertedDataRemains ∨ e = ValueError DateOutOfRange ∨
  e = UnicodeEncodeError ∨ e = ValueError PnpIdLength.
Proof.
  cbn [parse_spreadsheet].
  intros (pre & row & post & _ & _ & Hrel & He)%for_row_in_first_failure.
  by eapply row_vendor_raises.
Qed.

Lemma parser_exception_kinds_witness :
  ValueError PnpIdLength = AttributeError ∨
  ValueError PnpIdLength = ValueError TimeDataDoesNotMatch ∨
  ValueError PnpIdLength = ValueError UnconvertedDataRemains ∨
  ValueError PnpIdLength = ValueError DateOutOfRange ∨
  ValueError PnpIdLength = UnicodeEncodeError ∨
  ValueError PnpIdLength = ValueError PnpIdLength.
Proof.
  apply (parser_exception_kinds (document mixed_rows) [acme; acme_1_5]).
  vm_compute. reflexivity.
Defined.

(** X5. A row with three cells of text, an ID of three ASCII characters
    and a date written month/day/year with ASCII digits, the month and the
    day with one or two digits each and the year with four, yields its
    record as soon as the date exists in the calendar: the leading zero of
    a month or a day is optional. *)
Theorem row_with_calendar_date_yields (row : Element) (rows : list Element)
    (t1 t2 t3 m d y : str) (dt : date) :
  three_cells row t1 t2 t3 →
  three_ascii (strip t2) →
  strip t3 = m ++ [47] ++ d ++ [47] ++ y →
  one_or_two_digits m (month dt) → one_or_two_digits d (day dt) →
  four_digits y (year dt) →
  calendar_date dt →
  for_row_in (row :: rows)
    = yield (mkVendor (strip t1) (strip t2) dt) (for_row_in rows).
Proof.
  intros Hcells Hid Ht3 Hm Hd Hy Hcal.
  apply for_row_in_yield; [by eapply three_cells_relevant|].
  destruct Hcells as (c1 & c2 & c3 & Htds & H1 & H2 & H3).
  unfold row_vendor. rewrite Htds.
  rewrite (stripped_texts_three _ _ _ _ _ _ H1 H2 H3).
  cbn [mbind result_bind rbind]. rewrite Ht3.
  assert (1 ≤ month dt ≤ 12 ∧ 1 ≤ day dt ≤ 31) as [Hmr Hdr].
  { destruct Hcal as (_ & Hmr & Hdr). split; [done|].
    revert Hdr. repeat case_bool_decide; lia. }
  rewrite (strptime_digits _ _ _ _ _ _ Hm Hmr Hd Hdr Hy).
  destruct dt as [vy vm vd]. cbn [year month day] in *.
  rewrite datetime_date_calendar by done. cbn [mbind result_bind rbind].
  destruct (encode_ascii_three _ Hid) as [-> Hlen]. cbn [mbind result_bind rbind].
  by rewrite bool_decide_true.
Qed.

Lemma row_with_calendar_date_yields_witness :
  for_row_in [one_digit_date_row] = ([acme_1_5], None).
Proof.
  refine (row_with_calendar_date_yields one_digit_date_row []
            (py "Acme Corp") (py "ACM") (py "1/5/2016")
            (py "1") (py "5") (py "2016") (mkdate 2016 1 5) _ _ _ _ _ _ _).
  - unfold three_cells. do 3 eexists. split; [vm_compute; reflexivity|].
    repeat split; reflexivity.
  - unfold three_ascii. by_decide.
  - vm_compute. reflexivity.
  - left. eexists. split; reflexivity.
  - left. eexists. split; reflexivity.
  - do 8 eexists. repeat split; reflexivity.
  - unfold calendar_date. by_decide.
Defined.

(** X6. A row with three cells of text whose date has the shape of the
    format, month from 1 to 12 and day from 1 to 31, but does not exist in
    the calendar (30 February, 29 February of a common year, year 0) ends
    the iteration with the [ValueError] of [datetime.date], whatever its
    ID is: the date is checked before the ID. *)
Theorem row_with_impossible_date_raises (row : Element)
    (rows : list Element) (t1 t2 t3 m d y : str) (vm vd vy : Z) :
  three_cells row t1 t2 t3 →
  strip t3 = m ++ [47] ++ d ++ [47] ++ y →
  one_or_two_digits m vm → 1 ≤ vm ≤ 12 →
  one_or_two_digits d vd → 1 ≤ vd ≤ 31 →
  four_digits y vy →
  ¬ calendar_date (mkdate vy vm vd) →
  for_row_in (row :: rows) = ([], Some (ValueError DateOutOfRange)).
Proof.
  intros Hcells Ht3 Hm Hmr Hd Hdr Hy Hcal.
  apply for_row_in_raise; [by eapply three_cells_relevant|].
  destruct Hcells as (c1 & c2 & c3 & Htds & H1 & H2 & H3).
  unfold row_vendor. rewrite Htds.
  rewrite (stripped_texts_three _ _ _ _ _ _ H1 H2 H3).
  cbn [mbind result_bind rbind]. rewrite Ht3.
  rewrite (strptime_digits _ _ _ _ _ _ Hm Hmr Hd Hdr Hy).
  by rewrite datetime_date_out_of_range.
Qed.

Lemma row_with_impossible_date_raises_witness :
  for_row_in [leap_day_row; beta_row]
    = ([], Some (ValueError DateOutOfRange)).
Proof.
  refine (row_with_impossible_date_raises leap_day_row [beta_row]
            (py "Leap Ltd") (py "AB") (py "02/29/2019")
            (py "02") (py "29") (py "2019") 2 29 2019 _ _ _ _ _ _ _ _).
  - unfold three_cells. do 3 eexists. split; [vm_compute; reflexivity|].
    repeat split; reflexivity.
  - vm_compute. reflexivity.
  - right. do 4 eexists. repeat split; reflexivity.
  - lia.
  - right. do 4 eexists. repeat split; reflexivity.
  - lia.
  - do 8 eexists. repeat split; reflexivity.
  - unfold calendar_date. intros Hcal. revert Hcal.
    apply (bool_decide_eq_false_1 _). vm_compute. reflexivity.
Defined.

(** ** Which rows the parser sees *)

Lemma elem_of_filter_has_tag t e l :
  e ∈ List.filter (has_tag t) l ↔ e ∈ l ∧ tag e = t.
Proof.
  rewrite !list_elem_of_In, filter_In. unfold has_tag.
  by rewrite bool_decide_eq_true.
Qed.

Lemma elem_of_select_child t e res :
  e ∈ select (ChildStep t) res ↔
  ∃ parent, parent ∈ res ∧ e ∈ children parent ∧ tag e = t.
Proof.
  cbn [select]. rewrite list_elem_of_bind.
  setoid_rewrite elem_of_filter_has_tag. split.
  - intros (parent & [He Ht] & Hp). by exists parent.
  - intros (parent & Hp & He & Ht). by exists parent.
Qed.

Lemma elem_of_select_descendant t e res :
  e ∈ select (DescendantStep t) res ↔
  ∃ anc, anc ∈ res ∧ e ∈ (children anc ≫= iter) ∧ tag e = t.
Proof.
  cbn [select]. rewrite list_elem_of_bind.
  setoid_rewrite elem_of_filter_has_tag. split.
  - intros (anc & [He Ht] & Hp). by exists anc.
  - intros (anc & Hp & He & Ht). by exists anc.
Qed.

(** X7. The rows the parser walks are exactly the [tr] children of a
    [tbody] child of a [table] child of a [body] element that lies
    strictly below the root: rows under [thead], rows put straight into
    the [table], and a [body] that is the root itself are not seen. *)
Theorem rows_seen_by_parser (root row : Element) :
  row ∈ findall root rows_path ↔
  ∃ body table tbody,
    body ∈ (children root ≫= iter) ∧ tag body = py "body" ∧
    table ∈ children body ∧ tag table = py "table" ∧
    tbody ∈ children table ∧ tag tbody = py "tbody" ∧
    row ∈ children tbody ∧ tag row = py "tr".
Proof.
  unfold findall, rows_path. cbn [foldl].
  rewrite elem_of_select_child.
  setoid_rewrite elem_of_select_child.
  setoid_rewrite elem_of_select_child.
  setoid_rewrite elem_of_select_descendant.
  cbn [select]. setoid_rewrite list_elem_of_singleton.
  split.
  - intros (tbody & (table & (body & (r & -> & Hb & Hbt) & Ht & Htt)
                     & Htb & Htbt) & Hrow & Hrt).
    exists body, table, tbody. repeat split; assumption.
  - intros (body & table & tbody & Hb & Hbt & Ht & Htt & Htb & Htbt
            & Hrow & Hrt).
    exists tbody. split; [|by split]. exists table. split; [|by split].
    exists body. split; [|by split]. exists root. by repeat split.
Qed.

(** X8. For a plain document, [html], [body], [table], [tbody] and then
    the rows, all of them [tr] elements with no [body] element inside, the
    parser walks exactly these rows in the order of the document. *)
Theorem plain_document_rows_in_order (rows : list Element) :
  Forall (λ row, tag row = py "tr") rows →
  Forall (λ e, tag e ≠ py "body") (rows ≫= iter) →
  parse_spreadsheet (Return (document rows)) = for_row_in rows.
Proof.
  intros Htr Hbody. cbn [parse_spreadsheet]. by rewrite findall_document.
Qed.

Lemma plain_document_rows_in_order_witness :
  parse_spreadsheet (Return (document [acme_row; spacer_row; beta_row]))
    = for_row_in [acme_row; spacer_row; beta_row].
Proof.
  apply (plain_document_rows_in_order [acme_row; spacer_row; beta_row]);
    by_decide.
Defined.

(** ** The generator and its iterable *)

(** X11. An iterator object is used up by the generator: of two runs on
    the same iterator that ends normally, the first gives the module of
    all its records and the second the module with no entry at all, the
    nine fixed lines. *)
Theorem iterator_used_up (addr : nat) (h : Heap) (vs : list Vendor) :
  h !! addr = Some (vs, None) →
  generate_twice (IteratorObject addr) h =
    (Return (join newline
               (preamble ++ [opening] ++ (vendor_line <$> vs) ++ closing)),
     Return (join newline (preamble ++ [opening] ++ closing))).
Proof.
  intros Hh. unfold generate_twice, generate_text, drain, join_trace.
  rewrite Hh, lookup_insert_eq. cbn [from_option id].
  by rewrite !generate_vendor_module_unfold.
Qed.

Lemma iterator_used_up_witness :
  generate_twice (IteratorObject 0) {[ 0%nat := ([acme; beta], None) ]} =
    (Return (join newline
               (preamble ++ [opening] ++ (vendor_line <$> [acme; beta]) ++
                closing)),
     Return (join newline (preamble ++ [opening] ++ closing))).
Proof.
  apply iterator_used_up. apply lookup_singleton_eq.
Defined.

(** ** From the spreadsheet to the module and back *)







